(** * The Alfalyzer emergency Python server

    A shallow embedding of [server/emergency-python-server.py]: the
    request handler [AlfalyzerHandler] (content-root resolution, the mock
    JSON API, the CORS preflight answer) and the bind/serve loop
    [start_server] with the [__main__] wrapper, followed by the
    properties of the fallback server proved against that embedding.

    Python objects that are mutated in place (the handler, the process)
    are threaded through a small state-and-exception monad; calls into
    the Python standard library ([urllib.parse], [http.server],
    [socketserver]) are modelled after CPython 3.11. *)

From Stdlib Require Import List String Ascii ZArith Bool Lia.
Import ListNotations.
Local Open Scope string_scope.
Local Open Scope Z_scope.

Set Warnings "-register-all".

(** ** Python exceptions and effectful computations *)

Module Py.

(** The exception classes that matter to the control flow of the script.
    [KeyboardInterrupt] and [SystemExit] derive from [BaseException]
    only; the others derive from [Exception]. *)
Inductive exc : Type :=
| KeyboardInterrupt
| SystemExit (code : Z)
| OSError
| ValueError
| OtherException.

Definition is_OSError (e : exc) : bool :=
  match e with OSError => true | _ => false end.

Definition is_KeyboardInterrupt (e : exc) : bool :=
  match e with KeyboardInterrupt => true | _ => false end.

(** [isinstance(e, Exception)] *)
Definition is_Exception (e : exc) : bool :=
  match e with
  | KeyboardInterrupt | SystemExit _ => false
  | OSError | ValueError | OtherException => true
  end.

(** How a call ends: it returns a value, raises, or never comes back
    (a blocking call such as [serve_forever] that nothing interrupts). *)
Inductive res (A : Type) : Type :=
| Ret (a : A)
| Raise (e : exc)
| Blocked.
Arguments Ret {A} a.
Arguments Raise {A} e.
Arguments Blocked {A}.

(** A computation over a mutable object of type [S]. *)
Definition M (S A : Type) : Type := S -> res A * S.

Definition ret {S A} (a : A) : M S A := fun s => (Ret a, s).

Definition bind {S A B} (m : M S A) (k : A -> M S B) : M S B :=
  fun s =>
    match m s with
    | (Ret a, s') => k a s'
    | (Raise e, s') => (Raise e, s')
    | (Blocked, s') => (Blocked, s')
    end.

Definition raise {S A} (e : exc) : M S A := fun s => (Raise e, s).
Definition block {S A} : M S A := fun s => (Blocked, s).
Definition get {S} : M S S := fun s => (Ret s, s).
Definition modify {S} (f : S -> S) : M S unit := fun s => (Ret tt, f s).

(** A result computed without touching the object. *)
Definition lift {S A} (r : res A) : M S A := fun s => (r, s).

(** An [except] clause: the test [isinstance(e, cls)] and the body. *)
Definition clause (S A : Type) : Type := ((exc -> bool) * (exc -> M S A))%type.

(** The first clause whose class matches the exception handles it. *)
Fixpoint select {S A} (cs : list (clause S A)) (e : exc) : M S A :=
  match cs with
  | [] => raise e
  | (matches, body) :: cs' => if matches e then body e else select cs' e
  end.

(** [try: m  except cls1 as e: b1  except cls2 as e: b2 ...] *)
Definition try_except {S A} (m : M S A) (cs : list (clause S A)) : M S A :=
  fun s =>
    match m s with
    | (Raise e, s') => select cs e s'
    | r => r
    end.

(** [try: m  finally: f]; also the exit half of a [with] block. A
    computation that never comes back never reaches [f]. *)
Definition finally {S A} (m : M S A) (f : S -> S) : M S A :=
  fun s =>
    match m s with
    | (Blocked, s') => (Blocked, s')
    | (r, s') => (r, f s')
    end.

(** [for x in xs: body x] without [break]. *)
Fixpoint for_each {S A} (xs : list A) (body : A -> M S unit) : M S unit :=
  match xs with
  | [] => ret tt
  | x :: xs' => bind (body x) (fun _ => for_each xs' body)
  end.

(** What one iteration of a [for] loop asks of the loop. *)
Inductive ctl : Type := Continue | Break.

(** [for x in xs: body x] where the body may [continue] or [break]. *)
Fixpoint for_loop {S A} (xs : list A) (body : A -> M S ctl) : M S unit :=
  match xs with
  | [] => ret tt
  | x :: xs' =>
      bind (body x) (fun c =>
        match c with
        | Continue => for_loop xs' body
        | Break => ret tt
        end)
  end.

End Py.

Notation "x <- m ;; k" := (Py.bind m (fun x => k))
  (at level 61, m at next level, right associativity).
Notation "m ;; k" := (Py.bind m (fun _ => k))
  (at level 61, right associativity).

(** ** Strings

    [self.path] is decoded from the request line as ISO-8859-1, so its
    characters are exactly the 256 values of [ascii]. *)

Module Str.

Definition code (c : ascii) : N := N_of_ascii c.

(** [c in s] *)
Fixpoint contains (c : ascii) (s : string) : bool :=
  match s with
  | EmptyString => false
  | String d s' => Ascii.eqb c d || contains c s'
  end.

(** [s.partition(c)]: the text before the first [c] and, when [c]
    occurs, the text after it. *)
Fixpoint partition (c : ascii) (s : string) : string * option string :=
  match s with
  | EmptyString => (EmptyString, None)
  | String d s' =>
      if Ascii.eqb c d then (EmptyString, Some s')
      else let (b, a) := partition c s' in (String d b, a)
  end.

(** [s.rpartition(c)], keeping the separator with the head: the text
    up to and including the last [c], and the text after it. *)
Fixpoint rpartition (c : ascii) (s : string) : option string * string :=
  match s with
  | EmptyString => (None, EmptyString)
  | String d s' =>
      match rpartition c s' with
      | (Some h, t) => (Some (String d h), t)
      | (None, t) =>
          if Ascii.eqb c d then (Some (String d EmptyString), t)
          else (None, String d t)
      end
  end.

(** [s.lstrip(chars)] for the set of characters satisfying [p]. *)
Fixpoint lstrip (p : ascii -> bool) (s : string) : string :=
  match s with
  | EmptyString => EmptyString
  | String d s' => if p d then lstrip p s' else s
  end.

(** Deleting every character satisfying [p]: [s.replace(b, "")] for
    each such [b]. *)
Fixpoint remove (p : ascii -> bool) (s : string) : string :=
  match s with
  | EmptyString => EmptyString
  | String d s' => if p d then remove p s' else String d (remove p s')
  end.

Fixpoint all (p : ascii -> bool) (s : string) : bool :=
  match s with
  | EmptyString => true
  | String d s' => p d && all p s'
  end.

(** The longest prefix of characters not satisfying [p], and the rest. *)
Fixpoint break (p : ascii -> bool) (s : string) : string * string :=
  match s with
  | EmptyString => (EmptyString, EmptyString)
  | String d s' =>
      if p d then (EmptyString, s)
      else let (b, r) := break p s' in (String d b, r)
  end.

Fixpoint map (f : ascii -> ascii) (s : string) : string :=
  match s with
  | EmptyString => EmptyString
  | String d s' => String (f d) (map f s')
  end.

Definition is_upper (c : ascii) : bool :=
  ((65 <=? code c) && (code c <=? 90))%N.
Definition is_lower (c : ascii) : bool :=
  ((97 <=? code c) && (code c <=? 122))%N.
Definition is_digit (c : ascii) : bool :=
  ((48 <=? code c) && (code c <=? 57))%N.

(** [c.isascii() and c.isalpha()] *)
Definition is_ascii_alpha (c : ascii) : bool := is_upper c || is_lower c.

(** [s.lower()] on ASCII letters. *)
Definition lower_char (c : ascii) : ascii :=
  if is_upper c then ascii_of_N (code c + 32) else c.
Definition lower (s : string) : string := map lower_char s.

(** [s.isascii()] *)
Definition is_ascii (s : string) : bool := all (fun c => (code c <? 128)%N) s.

(** [s.startswith(p)] *)
Fixpoint startswith (p s : string) : bool :=
  match p, s with
  | EmptyString, _ => true
  | String _ _, EmptyString => false
  | String a p', String b s' => Ascii.eqb a b && startswith p' s'
  end.

End Str.

(** ** [urllib.parse.urlparse] *)

Module Urllib.

Record ParseResult : Type := {
  scheme : string;
  netloc : string;
  path : string;
  params : string;
  query : string;
  fragment : string
}.

Definition uses_params : list string :=
  [""; "ftp"; "hdl"; "prospero"; "http"; "imap"; "https"; "shttp";
   "rtsp"; "rtspu"; "sip"; "sips"; "mms"; "sftp"; "tel"].

(** Membership in [scheme_chars]: letters, digits and [+-.]. *)
Definition scheme_char (c : ascii) : bool :=
  Str.is_upper c || Str.is_lower c || Str.is_digit c
  || Ascii.eqb c "+" || Ascii.eqb c "-" || Ascii.eqb c ".".

(** Membership in [_WHATWG_C0_CONTROL_OR_SPACE]: codes 0 to 32. *)
Definition c0_control_or_space (c : ascii) : bool :=
  (Str.code c <=? 32)%N.

(** Membership in [_UNSAFE_URL_BYTES_TO_REMOVE]: tab, CR and LF. *)
Definition unsafe_url_byte (c : ascii) : bool :=
  ((Str.code c =? 9) || (Str.code c =? 13) || (Str.code c =? 10))%N.

Definition netloc_delim (c : ascii) : bool :=
  Ascii.eqb c "/" || Ascii.eqb c "?" || Ascii.eqb c "#".

(** The scheme test of [urlsplit]: [i = url.find(':')], and when
    [i > 0], [url[0]] is an ASCII letter and [url[:i]] holds scheme
    characters only, the scheme is split off in lower case. *)
Definition split_scheme (url : string) : string * string :=
  match Str.partition ":" url with
  | (String c0 _ as before, Some after) =>
      if Str.is_ascii_alpha c0 && Str.all scheme_char before
      then (Str.lower before, after)
      else (EmptyString, url)
  | _ => (EmptyString, url)
  end.

(** [_splitnetloc(url, 2)] for a [url] that starts with [//]. *)
Definition _splitnetloc (url : string) : string * string :=
  match url with
  | String _ (String _ rest) => Str.break netloc_delim rest
  | _ => (EmptyString, EmptyString)
  end.

(** [if url[:2] == '//': netloc, url = _splitnetloc(url, 2)] *)
Definition split_netloc (url : string) : string * string :=
  if Str.startswith "//" url then _splitnetloc url
  else (EmptyString, url).

(** [_splitparams]: the parameters are cut at the first [;] of the last
    path segment. *)
Definition _splitparams (url : string) : string * string :=
  match Str.rpartition "/" url with
  | (Some head, last) =>
      match Str.partition ";" last with
      | (seg, Some p) => (head ++ seg, p)
      | (_, None) => (url, EmptyString)
      end
  | (None, _) =>
      match Str.partition ";" url with
      | (seg, Some p) => (seg, p)
      | (_, None) => (url, EmptyString)
      end
  end.

Section Parse.

(** The two validations of [urlsplit] that look inside the host are
    taken as given: [_check_bracketed_netloc] (the syntax of an IPv6
    or IPvFuture literal) and the NFKC test of [_checknetloc]. Each
    holds when the check raises [ValueError] on the netloc; when the
    checks run at all is modelled below. *)
Variable bracketed_netloc_rejected : string -> bool.
Variable nfkc_netloc_rejected : string -> bool.

Definition netloc_error (netloc : string) : bool :=
  let open := Str.contains "[" netloc in
  let close := Str.contains "]" netloc in
  xorb open close
  || (open && close && bracketed_netloc_rejected netloc)
  || (negb (String.eqb netloc "") && negb (Str.is_ascii netloc)
      && nfkc_netloc_rejected netloc).

Definition urlparse (url0 : string) : Py.res ParseResult :=
  let url := Str.lstrip c0_control_or_space url0 in
  let url := Str.remove unsafe_url_byte url in
  let (scheme, url) := split_scheme url in
  let (netloc, url) := split_netloc url in
  if netloc_error netloc then Py.Raise Py.ValueError
  else
    let (url, fragment) :=
      match Str.partition "#" url with
      | (u, Some f) => (u, f)
      | (_, None) => (url, EmptyString)
      end in
    let (url, query) :=
      match Str.partition "?" url with
      | (u, Some q) => (u, q)
      | (_, None) => (url, EmptyString)
      end in
    let (url, params) :=
      if existsb (String.eqb scheme) uses_params && Str.contains ";" url
      then _splitparams url
      else (url, EmptyString) in
    Py.Ret {| scheme := scheme; netloc := netloc; path := url;
              params := params; query := query; fragment := fragment |}.

End Parse.

End Urllib.

(** ** JSON values

    The dictionaries handed to [json.dumps]. Python dictionaries keep
    insertion order, so an object is the list of its members in the order
    of the literal. *)

Module Json.

(** A float literal of the source, [digits / 10 ^ places] as written. *)
Record decimal : Type := { digits : Z; places : nat }.

Inductive value : Type :=
| JString (s : string)
| JFloat (f : decimal)
| JArray (items : list value)
| JObject (members : list (string * value)).

Definition keys (v : value) : list string :=
  match v with
  | JObject members => List.map fst members
  | _ => []
  end.

Fixpoint assoc (k : string) (members : list (string * value))
  : option value :=
  match members with
  | [] => None
  | (k', v) :: rest => if String.eqb k k' then Some v else assoc k rest
  end.

(** [v[k]] for an object [v]. *)
Definition get (k : string) (v : value) : option value :=
  match v with
  | JObject members => assoc k members
  | _ => None
  end.

End Json.

(** ** The request handler object, after [http.server] *)

Module Handler.

(** Where a handler or the process can stand in the file system. *)
Inductive dir : Type :=
| LaunchDir        (* the working directory the script was started in *)
| DistPublic       (* base_path / "dist" / "public" *)
| ClientPublic     (* base_path / "client" / "public" *)
| TempPublic.      (* base_path / "temp_public" *)

(** [self.request_version]: a request line without a version is
    HTTP/0.9, for which [http.server] writes no status line and no
    headers. *)
Inductive version : Type := HTTP_0_9 | HTTP_1.

Inductive header_line : Type :=
| StatusLine (code : Z)
| Header (keyword value : string)
| BlankLine.

(** What reaches the client socket through [self.wfile]. *)
Inductive chunk : Type :=
| HeaderBlock (lines : list header_line)  (* one [flush_headers] *)
| Body (v : Json.value).   (* json.dumps(v, indent=2).encode() *)

Record t : Type := {
  request_version : version;
  path : string;                      (* self.path *)
  directory : dir;                    (* self.directory *)
  headers_buffer : list header_line;  (* self._headers_buffer *)
  wfile : list chunk;                 (* bytes written so far *)
  log : list Z                        (* codes log_request wrote to stderr *)
}.

Definition set_path (p : string) (h : t) : t :=
  {| request_version := request_version h; path := p;
     directory := directory h; headers_buffer := headers_buffer h;
     wfile := wfile h; log := log h |}.

Definition set_headers_buffer (b : list header_line) (h : t) : t :=
  {| request_version := request_version h; path := path h;
     directory := directory h; headers_buffer := b;
     wfile := wfile h; log := log h |}.

Definition write (c : chunk) (h : t) : t :=
  {| request_version := request_version h; path := path h;
     directory := directory h; headers_buffer := headers_buffer h;
     wfile := wfile h ++ [c]; log := log h |}.

Definition add_log (code : Z) (h : t) : t :=
  {| request_version := request_version h; path := path h;
     directory := directory h; headers_buffer := headers_buffer h;
     wfile := wfile h; log := log h ++ [code] |}.

(** A handler as [http.server] hands it to a [do_] method: nothing
    buffered, nothing written. *)
Definition fresh (v : version) (p : string) (d : dir) : t :=
  {| request_version := v; path := p; directory := d;
     headers_buffer := []; wfile := []; log := [] |}.

(** Reading a reply off the wire: the status of the reply is the first
    line of the first block written, its headers are the rest of that
    block, its body is what follows. *)
Definition status (wire : list chunk) : option Z :=
  match wire with
  | HeaderBlock (StatusLine code :: _) :: _ => Some code
  | _ => None
  end.

Fixpoint find_header (keyword : string) (lines : list header_line)
  : option string :=
  match lines with
  | [] => None
  | Header k v :: rest =>
      if String.eqb k keyword then Some v else find_header keyword rest
  | _ :: rest => find_header keyword rest
  end.

Definition header (keyword : string) (wire : list chunk) : option string :=
  match wire with
  | HeaderBlock lines :: _ => find_header keyword lines
  | _ => None
  end.

Fixpoint bodies (wire : list chunk) : list Json.value :=
  match wire with
  | [] => []
  | Body v :: rest => v :: bodies rest
  | HeaderBlock _ :: rest => bodies rest
  end.

(** The Python runtime a request is handled in. The netloc
    validations of [urlsplit] and the inherited static file server are
    taken as given; the file server is taken to return, whatever it
    logs and writes. *)
Record runtime : Type := {
  sys_version : string;
  sys_platform : string;
  gmtime_iso : string;    (* time.strftime('%Y-%m-%dT%H:%M:%SZ', time.gmtime()) *)
  version_string : string;       (* self.version_string() *)
  date_time_string : string;     (* self.date_time_string() *)
  bracketed_netloc_rejected : string -> bool;
  nfkc_netloc_rejected : string -> bool;
  SimpleHTTPRequestHandler_do_GET : t -> t;
  SimpleHTTPRequestHandler_do_HEAD : t -> t;
  send_error : Z -> t -> t
}.

(** [urlparse] in a given runtime. *)
Definition urlparse (rt : runtime) (url : string)
  : Py.res Urllib.ParseResult :=
  Urllib.urlparse (bracketed_netloc_rejected rt) (nfkc_netloc_rejected rt) url.

Section Methods.

Variable rt : runtime.

Definition is_0_9 (h : t) : bool :=
  match request_version h with HTTP_0_9 => true | HTTP_1 => false end.

Definition buffer_line (l : header_line) : Py.M t unit :=
  Py.modify (fun h =>
    if is_0_9 h then h
    else set_headers_buffer (headers_buffer h ++ [l]) h).

Definition log_request (code : Z) : Py.M t unit :=
  Py.modify (add_log code).

Definition send_response_only (code : Z) : Py.M t unit :=
  buffer_line (StatusLine code).

(** No header this handler sends is [Connection], so the effect of
    that header on [close_connection] is left out. *)
Definition send_header (keyword value : string) : Py.M t unit :=
  buffer_line (Header keyword value).

Definition send_response (code : Z) : Py.M t unit :=
  log_request code ;;
  send_response_only code ;;
  send_header "Server" (version_string rt) ;;
  send_header "Date" (date_time_string rt).

Definition flush_headers : Py.M t unit :=
  Py.modify (fun h =>
    set_headers_buffer [] (write (HeaderBlock (headers_buffer h)) h)).

Definition end_headers : Py.M t unit :=
  h <- Py.get ;;
  if is_0_9 h then Py.ret tt
  else buffer_line BlankLine ;; flush_headers.

(** [self.wfile.write(json.dumps(v, indent=2).encode())] *)
Definition wfile_write (v : Json.value) : Py.M t unit :=
  Py.modify (write (Body v)).

End Methods.

End Handler.

(** ** The process: file system, working directory, console, sockets *)

Module Process.

Import Handler.

(** A bind candidate, [(port, host)]. *)
Definition candidate : Type := (Z * string)%type.

(** The page written by [create_basic_files]: the fixed template with
    its two interpolated values, [sys.version] and [str(Path.cwd())]. *)
Record page : Type := { page_python_version : string; page_directory : dir }.

(** The lines the script prints, by the statement that prints them. *)
Inductive message : Type :=
| ServingFrom (d : dir)             (* "Serving from: {d}" *)
| ServingFromTemporary (d : dir)    (* "Serving from temporary: {d}" *)
| Banner                            (* "EMERGENCY PYTHON SERVER - ..." *)
| Rule                              (* "=" * 60 *)
| Trying (c : candidate)            (* "Trying {host}:{port}..." *)
| NotAvailable (c : candidate)      (* "Port {port} on {host} is not available" *)
| ServerActive                      (* "PYTHON EMERGENCY SERVER ACTIVE!" *)
| LocalUrl (port : Z)               (* "Local:    http://localhost:{port}" *)
| NetworkUrl (c : candidate)        (* "Network:  http://{host}:{port}" *)
| ApiUrl (port : Z)                 (* "API:      .../api/health" *)
| StocksUrl (port : Z)              (* "Stocks:   .../api/stocks" *)
| Ready                             (* "Server is ready to accept connections" *)
| PressCtrlC                        (* "Press Ctrl+C to stop the server" *)
| Stopping                          (* "Server stopping..." *)
| FailedToBind (c : candidate) (e : Py.exc)  (* "Failed to bind to {host}:{port} - {e}" *)
| UnexpectedError (e : Py.exc)      (* "Unexpected error: {e}" *)
| AllFailed                         (* "All binding strategies failed!" *)
| Goodbye                           (* "Goodbye!" *)
| FatalError (e : Py.exc).          (* "Fatal error: {e}" *)

(** What the process does that can be seen from outside, in order. *)
Inductive event : Type :=
| Print (m : message)
| Listen (c : candidate)      (* a TCPServer bound and listening on c *)
| Close (c : candidate)       (* server_close() on leaving a with block *)
| ServeForever (c : candidate)   (* serve_forever() entered *)
| Mkdir (d : dir)
| WriteIndex (d : dir) (content : page)   (* d / "index.html" written *)
| Chdir (d : dir)
| Handled (h : Handler.t)     (* a request handled; h as it was left *)
| HandleError (e : Py.exc).   (* socketserver's handle_error *)

Record t : Type := {
  dist_exists : bool;          (* dist_path.exists() *)
  client_exists : bool;        (* client_public.exists() *)
  temp_exists : bool;          (* temp_dir exists *)
  temp_index : option page;    (* temp_dir / "index.html" *)
  cwd : dir;
  trace : list event
}.

Definition record (e : event) (p : t) : t :=
  {| dist_exists := dist_exists p; client_exists := client_exists p;
     temp_exists := temp_exists p; temp_index := temp_index p;
     cwd := cwd p; trace := trace p ++ [e] |}.

Definition emit (e : event) : Py.M t unit := Py.modify (record e).

Definition print (m : message) : Py.M t unit := emit (Print m).

(** [os.chdir(d)] *)
Definition chdir (d : dir) : Py.M t unit :=
  Py.modify (fun p =>
    {| dist_exists := dist_exists p; client_exists := client_exists p;
       temp_exists := temp_exists p; temp_index := temp_index p;
       cwd := d; trace := trace p ++ [Chdir d] |}).

(** [temp_dir.mkdir(exist_ok=True)] *)
Definition mkdir_temp : Py.M t unit :=
  Py.modify (fun p =>
    {| dist_exists := dist_exists p; client_exists := client_exists p;
       temp_exists := true; temp_index := temp_index p;
       cwd := cwd p;
       trace := trace p ++ (if temp_exists p then [] else [Mkdir TempPublic]) |}).

(** [with open(temp_dir / "index.html", "w") as f: f.write(content)];
    the only directory written to is the temporary one. *)
Definition write_index (temp_dir : dir) (content : page) : Py.M t unit :=
  Py.modify (fun p =>
    {| dist_exists := dist_exists p; client_exists := client_exists p;
       temp_exists := temp_exists p; temp_index := Some content;
       cwd := cwd p; trace := trace p ++ [WriteIndex temp_dir content] |}).

(** Reading a trace: the candidates announced with "Trying", the
    candidates a socket was opened on, the candidates served, and the
    directories the process moved into, each in order. *)
Definition tried (tr : list event) : list candidate :=
  flat_map (fun e => match e with Print (Trying c) => [c] | _ => [] end) tr.

Definition listened (tr : list event) : list candidate :=
  flat_map (fun e => match e with Listen c => [c] | _ => [] end) tr.

Definition served (tr : list event) : list candidate :=
  flat_map (fun e => match e with ServeForever c => [c] | _ => [] end) tr.

Definition roots (tr : list event) : list dir :=
  flat_map (fun e => match e with Chdir d => [d] | _ => [] end) tr.

(** A process as the operating system starts it. *)
Definition start (dist client temp : bool) (index : option page) : t :=
  {| dist_exists := dist; client_exists := client; temp_exists := temp;
     temp_index := index; cwd := LaunchDir; trace := [] |}.

End Process.

(** ** The connections a server receives *)

Module Connection.

(** [self.command]. The handler class has [do_GET] and [do_OPTIONS] of
    its own and inherits [do_HEAD]; every other command is answered by
    [send_error(501)]. *)
Inductive method : Type := GET | HEAD | OPTIONS | Unsupported.

(** One accepted connection with the request read from it, as
    [parse_request] leaves it: the command, [self.path] and the
    request version, with the runtime at the time it is handled. *)
Record t : Type := {
  runtime : Handler.runtime;
  command : method;
  path : string;
  version : Handler.version
}.

End Connection.

(** ** [class AlfalyzerHandler(http.server.SimpleHTTPRequestHandler)] *)

Module AlfalyzerHandler.

Import Handler Process.
Import Json.

(** The list under ["data"] in the stocks reply. The prices are the
    float literals of the source. *)
Definition stocks_data : list Json.value :=
  [ JObject [("symbol", JString "AAPL");
             ("price", JFloat {| digits := 15025; places := 2 |});
             ("change", JString "+2.15")];
    JObject [("symbol", JString "GOOGL");
             ("price", JFloat {| digits := 280050; places := 2 |});
             ("change", JString "-5.75")];
    JObject [("symbol", JString "MSFT");
             ("price", JFloat {| digits := 30075; places := 2 |});
             ("change", JString "+1.25")];
    JObject [("symbol", JString "TSLA");
             ("price", JFloat {| digits := 80090; places := 2 |});
             ("change", JString "+12.45")] ].

Section Methods.

Variable rt : runtime.

Definition handle_api_request (parsed_path : Urllib.ParseResult)
  : Py.M Handler.t unit :=
  let path := Urllib.path parsed_path in
  send_response rt 200 ;;
  send_header "Content-Type" "application/json" ;;
  send_header "Access-Control-Allow-Origin" "*" ;;
  send_header "Access-Control-Allow-Methods" "GET, POST, OPTIONS" ;;
  send_header "Access-Control-Allow-Headers" "Content-Type, Authorization" ;;
  end_headers ;;
  response <-
    (if String.eqb path "/api/health" then
       Py.ret (JObject [("status", JString "healthy");
                        ("server", JString "emergency-python-server");
                        ("timestamp", JString (gmtime_iso rt));
                        ("python_version", JString (sys_version rt));
                        ("platform", JString (sys_platform rt))])
     else if String.eqb path "/api/stocks" then
       Py.ret (JObject [("message", JString "Emergency Python server active");
                        ("data", JArray stocks_data);
                        ("timestamp", JString (gmtime_iso rt));
                        ("source", JString "python-emergency-server")])
     else
       send_response rt 404 ;;
       Py.ret (JObject [("error", JString "API endpoint not found");
                        ("path", JString path);
                        ("server", JString "emergency-python-server")])) ;;
  wfile_write response.

Definition do_GET : Py.M Handler.t unit :=
  self <- Py.get ;;
  parsed_path <- Py.lift (urlparse rt (path self)) ;;
  if Str.startswith "/api/" (Urllib.path parsed_path) then
    handle_api_request parsed_path
  else
    (if String.eqb (Urllib.path parsed_path) "/"
        || String.eqb (Urllib.path parsed_path) ""
     then Py.modify (set_path "/index.html")
     else Py.ret tt) ;;
    Py.modify (SimpleHTTPRequestHandler_do_GET rt).

Definition do_OPTIONS : Py.M Handler.t unit :=
  send_response rt 200 ;;
  send_header "Access-Control-Allow-Origin" "*" ;;
  send_header "Access-Control-Allow-Methods" "GET, POST, OPTIONS" ;;
  send_header "Access-Control-Allow-Headers" "Content-Type, Authorization" ;;
  end_headers.

Definition create_basic_files (temp_dir : dir) : Py.M Process.t unit :=
  p <- Py.get ;;
  let index_content :=
    {| page_python_version := sys_version rt; page_directory := cwd p |} in
  write_index temp_dir index_content.

End Methods.

(** What a client gets for a request with an HTTP/1.x request line:
    how the [do_] method ends and what it wrote to the socket. *)
Definition reply (out : Py.res unit * Handler.t)
  : Py.res unit * list chunk :=
  (fst out, wfile (snd out)).

Definition GET (rt : runtime) (target : string) (d : dir)
  : Py.res unit * list chunk :=
  reply (do_GET rt (fresh HTTP_1 target d)).

Definition OPTIONS (rt : runtime) (target : string) (d : dir)
  : Py.res unit * list chunk :=
  reply (do_OPTIONS rt (fresh HTTP_1 target d)).

(** The call to [super().__init__]: [SimpleHTTPRequestHandler]
    takes the working directory as [self.directory], and
    [BaseRequestHandler.__init__] handles the request on the spot,
    calling the [do_] method named by the command. *)
Definition super_init (conn : Connection.t) : Py.M Process.t unit :=
  let rt := Connection.runtime conn in
  p <- Py.get ;;
  let self := fresh (Connection.version conn) (Connection.path conn) (cwd p) in
  let method :=
    match Connection.command conn with
    | Connection.GET => do_GET rt
    | Connection.OPTIONS => do_OPTIONS rt
    | Connection.HEAD => Py.modify (SimpleHTTPRequestHandler_do_HEAD rt)
    | Connection.Unsupported => Py.modify (send_error rt 501)
    end in
  match method self with
  | (Py.Ret _, self') => emit (Handled self')
  | (Py.Raise e, self') => emit (Handled self') ;; Py.raise e
  | (Py.Blocked, _) => Py.block
  end.

(** [__init__]: runs for every handler object, that is for every
    connection the server accepts. *)
Definition __init__ (conn : Connection.t) : Py.M Process.t unit :=
  let rt := Connection.runtime conn in
  p <- Py.get ;;
  (if dist_exists p then
     chdir DistPublic ;;
     print (ServingFrom DistPublic)
   else if client_exists p then
     chdir ClientPublic ;;
     print (ServingFrom ClientPublic)
   else
     let temp_dir := TempPublic in
     mkdir_temp ;;
     create_basic_files rt temp_dir ;;
     chdir temp_dir ;;
     print (ServingFromTemporary temp_dir)) ;;
  super_init conn.

End AlfalyzerHandler.

(** ** [try_port], [start_server] and the [__main__] block *)

Module Server.

Import Handler Process.

(** Everything outside the process that it reacts to: whether a
    [TCPServer] can be constructed on a candidate (first in [try_port],
    then for real), which connections arrive while a candidate is
    served, and how the blocking [serve_forever] ends: with an exception
    (a [KeyboardInterrupt] when the operator stops the server) or
    never. The loop visits a candidate once, so one answer per
    candidate is enough. *)
Record world : Type := {
  probe : candidate -> option Py.exc;
  bind : candidate -> option Py.exc;
  arrivals : candidate -> list Connection.t;
  serve_end : candidate -> option Py.exc
}.

(** [socketserver.TCPServer((host, port), AlfalyzerHandler)]: binds and
    listens, or raises. No handler object is created here. *)
Definition TCPServer (outcome : option Py.exc) (c : candidate)
  : Py.M Process.t unit :=
  match outcome with
  | None => emit (Listen c)
  | Some e => Py.raise e
  end.

(** [with socketserver.TCPServer(...) as httpd: body] *)
Definition with_TCPServer {A} (outcome : option Py.exc) (c : candidate)
           (body : Py.M Process.t A) : Py.M Process.t A :=
  TCPServer outcome c ;;
  Py.finally body (record (Close c)).

(** [sys.exit(code)] *)
Definition sys_exit {A} (code : Z) : Py.M Process.t A :=
  Py.raise (Py.SystemExit code).

Definition strategies : list candidate :=
  [ (3001, "127.0.0.1");
    (3001, "localhost");
    (3001, "0.0.0.0");
    (8080, "127.0.0.1");
    (8080, "localhost");
    (8080, "0.0.0.0");
    (3000, "127.0.0.1");
    (5000, "127.0.0.1") ].

Section Run.

Variable w : world.

(** One connection inside [serve_forever]: the handler object is
    constructed, which handles the request; an [Exception] escaping
    it goes to [handle_error] and the server carries on. *)
Definition process_request (conn : Connection.t) : Py.M Process.t unit :=
  Py.try_except (AlfalyzerHandler.__init__ conn)
    [ (Py.is_Exception, fun e => emit (HandleError e)) ].

(** [httpd.serve_forever()]: connections are handled one at a time
    until the call is ended from outside, if ever. *)
Definition serve_forever (c : candidate) : Py.M Process.t unit :=
  emit (ServeForever c) ;;
  Py.for_each (arrivals w c) process_request ;;
  match serve_end w c with
  | Some e => Py.raise e
  | None => Py.block
  end.

Definition try_port (port : Z) (host : string) : Py.M Process.t bool :=
  Py.try_except
    (with_TCPServer (probe w (port, host)) (port, host) (Py.ret true))
    [ (Py.is_OSError, fun _ => Py.ret false) ].

(** [for port in ports: if try_port(port, host): return port] and
    [return None] after the loop. *)
Fixpoint first_free_port (ports : list Z) (host : string)
  : Py.M Process.t (option Z) :=
  match ports with
  | [] => Py.ret None
  | port :: ports' =>
      free <- try_port port host ;;
      if free then Py.ret (Some port) else first_free_port ports' host
  end.

(** Not called by the script. [range(start_port, start_port + 10)] is
    the ten ports from [start_port] on. *)
Definition find_available_port (start_port : Z) (host : string)
  : Py.M Process.t (option Z) :=
  first_free_port (List.map (fun i => start_port + Z.of_nat i) (seq 0 10)) host.

(** The body of [for port, host in strategies]. *)
Definition attempt (c : candidate) : Py.M Process.t Py.ctl :=
  let '(port, host) := c in
  Py.try_except
    (print (Trying (port, host)) ;;
     available <- try_port port host ;;
     if negb available then
       print (NotAvailable (port, host)) ;;
       Py.ret Py.Continue
     else
       with_TCPServer (bind w (port, host)) (port, host)
         (print ServerActive ;;
          print (LocalUrl port) ;;
          print (NetworkUrl (port, host)) ;;
          print (ApiUrl port) ;;
          print (StocksUrl port) ;;
          print Rule ;;
          print Ready ;;
          print PressCtrlC ;;
          Py.try_except
            (serve_forever (port, host) ;;
             Py.ret Py.Continue)
            [ (Py.is_KeyboardInterrupt,
               fun _ => print Stopping ;; Py.ret Py.Break) ]))
    [ (Py.is_OSError,
       fun e => print (FailedToBind (port, host) e) ;; Py.ret Py.Continue);
      (Py.is_Exception,
       fun e => print (UnexpectedError e) ;; Py.ret Py.Continue) ].

Definition start_server : Py.M Process.t unit :=
  print Banner ;;
  print Rule ;;
  Py.for_loop strategies attempt ;;
  print AllFailed ;;
  sys_exit 1.

(** [if __name__ == "__main__":] *)
Definition main : Py.M Process.t unit :=
  Py.try_except start_server
    [ (Py.is_KeyboardInterrupt, fun _ => print Goodbye);
      (Py.is_Exception,
       fun e => print (FatalError e) ;; sys_exit 1) ].

End Run.

(** How the operating system sees the process end. *)
Inductive status : Type :=
| Exit (code : Z)
| Running.      (* the process is still serving *)

(** The interpreter's exit status: 0 when the script runs off its end,
    the argument of [sys.exit], 130 for an uncaught interrupt and 1 for
    any other uncaught exception. *)
Definition exit_status (r : Py.res unit) : status :=
  match r with
  | Py.Ret _ => Exit 0
  | Py.Raise (Py.SystemExit code) => Exit code
  | Py.Raise Py.KeyboardInterrupt => Exit 130
  | Py.Raise _ => Exit 1
  | Py.Blocked => Running
  end.

(** Running the script in world [w] from process state [p]: the exit
    status and everything the process did. *)
Definition run (w : world) (p : Process.t) : status * list event :=
  let (r, p') := main w p in (exit_status r, trace p').

End Server.

(** ** Replies and traces, spelled out for the statements below *)

Module Expected.

Import Handler Process AlfalyzerHandler Json.

(** The block of status line and headers every API reply starts with. *)
Definition api_block (rt : runtime) : chunk :=
  HeaderBlock
    [ StatusLine 200;
      Header "Server" (version_string rt);
      Header "Date" (date_time_string rt);
      Header "Content-Type" "application/json";
      Header "Access-Control-Allow-Origin" "*";
      Header "Access-Control-Allow-Methods" "GET, POST, OPTIONS";
      Header "Access-Control-Allow-Headers" "Content-Type, Authorization";
      BlankLine ].

Definition health_body (rt : runtime) : Json.value :=
  JObject [("status", JString "healthy");
           ("server", JString "emergency-python-server");
           ("timestamp", JString (gmtime_iso rt));
           ("python_version", JString (sys_version rt));
           ("platform", JString (sys_platform rt))].

Definition stocks_body (rt : runtime) : Json.value :=
  JObject [("message", JString "Emergency Python server active");
           ("data", JArray stocks_data);
           ("timestamp", JString (gmtime_iso rt));
           ("source", JString "python-emergency-server")].

Definition not_found_body (path : string) : Json.value :=
  JObject [("error", JString "API endpoint not found");
           ("path", JString path);
           ("server", JString "emergency-python-server")].

(** The root the priority order selects in a given file system. *)
Definition root_for (dist client : bool) : dir :=
  if dist then DistPublic
  else if client then ClientPublic
  else TempPublic.

(** What the loop does on a candidate whose probe fails. *)
Definition skip_events (c : candidate) : list event :=
  [ Print (Trying c);
    Print (NotAvailable c) ].

(** What the loop does on a free candidate, up to the blocking call. *)
Definition bound_events (c : candidate) : list event :=
  [ Print (Trying c);
    Listen c;
    Close c;
    Listen c;
    Print ServerActive;
    Print (LocalUrl (fst c));
    Print (NetworkUrl c);
    Print (ApiUrl (fst c));
    Print (StocksUrl (fst c));
    Print Rule;
    Print Ready;
    Print PressCtrlC;
    ServeForever c ].

(** The events of handling one connection: no candidate is tried,
    bound or served, and the root is resolved once. *)
Definition quiet (es : list event) : Prop :=
  tried es = [] /\ listened es = [] /\ served es = [].

(** How the loop body ends on a free candidate, by the way
    [serve_forever] ends. *)
Definition after_serving (w : Server.world) (c : Process.candidate)
           (p : Process.t)
  : Py.res Py.ctl * Process.t :=
  match Server.serve_end w c with
  | None => (Py.Blocked, p)
  | Some Py.KeyboardInterrupt =>
      (Py.Ret Py.Break, record (Close c) (record (Print Stopping) p))
  | Some (Py.SystemExit code) =>
      (Py.Raise (Py.SystemExit code), record (Close c) p)
  | Some Py.OSError =>
      (Py.Ret Py.Continue,
       record (Print (FailedToBind c Py.OSError)) (record (Close c) p))
  | Some e =>
      (Py.Ret Py.Continue,
       record (Print (UnexpectedError e)) (record (Close c) p))
  end.

(** The end of [start_server] after the loop. *)
Definition after_loop (out : Py.res unit * Process.t)
  : Py.res unit * Process.t :=
  match out with
  | (Py.Ret _, p) => (Py.Raise (Py.SystemExit 1), record (Print AllFailed) p)
  | other => other
  end.

End Expected.

(** ** Sample runtimes, requests and worlds *)

Module Sample.

Import Handler Process Server.

Definition rt : runtime :=
  {| sys_version := "3.11.2 (main)";
     sys_platform := "linux";
     gmtime_iso := "2025-01-01T00:00:00Z";
     version_string := "SimpleHTTP/0.6 Python/3.11.2";
     date_time_string := "Wed, 01 Jan 2025 00:00:00 GMT";
     bracketed_netloc_rejected := fun _ => false;
     nfkc_netloc_rejected := fun _ => false;
     SimpleHTTPRequestHandler_do_GET := fun h => h;
     SimpleHTTPRequestHandler_do_HEAD := fun h => h;
     send_error := fun _ h => h |}.

Definition request (m : Connection.method) (p : string) : Connection.t :=
  {| Connection.runtime := rt; Connection.command := m;
     Connection.path := p; Connection.version := HTTP_1 |}.

Definition candidate_eqb (a b : candidate) : bool :=
  (fst a =? fst b) && String.eqb (snd a) (snd b).

(** Every candidate is taken. *)
Definition all_busy : world :=
  {| probe := fun _ => Some Py.OSError;
     bind := fun _ => Some Py.OSError;
     arrivals := fun _ => [];
     serve_end := fun _ => None |}.

(** The first [n] candidates are taken, the others are free; the one
    served receives [conns] and then [stop]. *)
Definition free_after (n : nat) (conns : list Connection.t)
           (stop : option Py.exc) : world :=
  {| probe := fun c =>
       if existsb (candidate_eqb c) (firstn n strategies)
       then Some Py.OSError else None;
     bind := fun _ => None;
     arrivals := fun _ => conns;
     serve_end := fun _ => stop |}.

(** A machine with neither a build output nor the client assets. *)
Definition bare : Process.t := Process.start false false false None.

End Sample.

(** ** More ways to read a trace *)

Module Observe.

Import Handler Process Server.

(** The operations on listening sockets, in order. *)
Inductive socket_op : Type :=
| Open (c : candidate)
| Shut (c : candidate).

Definition socket_ops (tr : list event) : list socket_op :=
  flat_map (fun e => match e with
                     | Listen c => [Open c]
                     | Close c => [Shut c]
                     | _ => []
                     end) tr.

(** Running the socket operations from the socket that is open, if any:
    a socket may be opened only when none is open, and a close must
    name the open socket. The result is the socket left open; [None]
    outside means the discipline was broken. *)
Fixpoint one_socket (open : option candidate) (ops : list socket_op)
  : option (option candidate) :=
  match ops with
  | [] => Some open
  | Open c :: rest =>
      match open with
      | None => one_socket (Some c) rest
      | Some _ => None
      end
  | Shut c :: rest =>
      match open with
      | Some c' =>
          if Sample.candidate_eqb c c' then one_socket None rest else None
      | None => None
      end
  end.

(** The handlers that were constructed, as they were left. *)
Definition handled (tr : list event) : list Handler.t :=
  flat_map (fun e => match e with Handled h => [h] | _ => [] end) tr.

(** The errors given to [handle_error]. *)
Definition handle_errors (tr : list event) : list Py.exc :=
  flat_map (fun e => match e with HandleError x => [x] | _ => [] end) tr.

(** The directories created or written into. *)
Definition written (tr : list event) : list dir :=
  flat_map (fun e => match e with
                     | Mkdir d => [d]
                     | WriteIndex d _ => [d]
                     | _ => []
                     end) tr.

(** The events of handling connections: everything but console lines
    of the loop, sockets and serving. *)
Definition connection_event (e : event) : bool :=
  match e with
  | Print (ServingFrom _) | Print (ServingFromTemporary _) => true
  | Mkdir _ | WriteIndex _ _ | Chdir _ | Handled _ | HandleError _ => true
  | _ => false
  end.

(** The line of the [__main__] block for an exception out of
    [start_server]. *)
Definition is_fatal (e : event) : bool :=
  match e with
  | Print (FatalError _) => true
  | _ => false
  end.

(** [range(start_port, start_port + n)] *)
Definition ports_from (start_port : Z) (n : nat) : list Z :=
  List.map (fun i => start_port + Z.of_nat i) (seq 0 n).

(** Whether the loop can get a serving socket on a candidate: the probe
    of [try_port] and the real bind both succeed. *)
Definition bindable (w : world) (c : candidate) : bool :=
  match probe w c, bind w c with
  | None, None => true
  | _, _ => false
  end.

(** How the loop body ends on a candidate, read off the world. *)
Definition attempt_outcome (w : world) (c : candidate) : Py.res Py.ctl :=
  match probe w c with
  | Some e => if Py.is_Exception e then Py.Ret Py.Continue else Py.Raise e
  | None =>
      match bind w c with
      | Some e => if Py.is_Exception e then Py.Ret Py.Continue else Py.Raise e
      | None =>
          match serve_end w c with
          | None => Py.Blocked
          | Some Py.KeyboardInterrupt => Py.Ret Py.Break
          | Some e =>
              if Py.is_Exception e then Py.Ret Py.Continue else Py.Raise e
          end
      end
  end.

(** How the loop over a list of candidates ends, read off the world:
    it goes on past a candidate whose body ends in [continue] and stops
    at the first one whose body breaks, raises or blocks. *)
Fixpoint loop_end (w : world) (cs : list candidate) : Py.res unit :=
  match cs with
  | [] => Py.Ret tt
  | c :: cs' =>
      match attempt_outcome w c with
      | Py.Ret Py.Continue => loop_end w cs'
      | Py.Ret Py.Break => Py.Ret tt
      | Py.Raise e => Py.Raise e
      | Py.Blocked => Py.Blocked
      end
  end.

(** The candidates up to and including the first at which the loop
    stops. *)
Fixpoint upto_stop (w : world) (cs : list candidate) : list candidate :=
  match cs with
  | [] => []
  | c :: cs' =>
      c :: match attempt_outcome w c with
           | Py.Ret Py.Continue => upto_stop w cs'
           | _ => []
           end
  end.

End Observe.

(** * Properties *)

(** ** Strings *)

Module StrFacts.
Import Str.

Lemma app_empty_r (a : string) : a ++ "" = a.
Proof. induction a as [|d a IH]; simpl; [reflexivity | now rewrite IH]. Qed.

Lemma contains_app (c : ascii) (a b : string) :
  contains c (a ++ b) = contains c a || contains c b.
Proof.
  induction a as [|d a IH]; simpl; [reflexivity|].
  rewrite IH. now rewrite orb_assoc.
Qed.

Lemma partition_absent (c : ascii) (a : string) :
  contains c a = false -> partition c a = (a, None).
Proof.
  induction a as [|d a IH]; simpl; intros H; [reflexivity|].
  apply orb_false_elim in H. destruct H as [H1 H2].
  rewrite H1, (IH H2). reflexivity.
Qed.

Lemma partition_app_absent (c : ascii) (a x : string) :
  contains c a = false ->
  partition c (a ++ x) = (a ++ fst (partition c x), snd (partition c x)).
Proof.
  induction a as [|d a IH]; simpl; intros H.
  - now destruct (partition c x).
  - apply orb_false_elim in H. destruct H as [H1 H2].
    rewrite H1, (IH H2). reflexivity.
Qed.

Lemma partition_app_found (c : ascii) (a x b r : string) :
  partition c a = (b, Some r) ->
  partition c (a ++ x) = (b, Some (r ++ x)).
Proof.
  revert b. induction a as [|d a IH]; simpl; intros b H; [discriminate|].
  destruct (Ascii.eqb c d).
  - now inversion H.
  - destruct (partition c a) as [b' o] eqn:E. inversion H; subst.
    now rewrite (IH b' eq_refl).
Qed.

Lemma partition_present (c : ascii) (a : string) :
  contains c a = true -> exists b r, partition c a = (b, Some r).
Proof.
  induction a as [|d a IH]; simpl; intros H; [discriminate|].
  destruct (Ascii.eqb c d); [now eauto|].
  destruct (IH H) as (b & r & E). rewrite E. eauto.
Qed.

(** Neither part of a partition gains a character. *)
Lemma partition_contains (c d : ascii) (a b : string) (o : option string) :
  partition c a = (b, o) -> contains d a = false ->
  contains d b = false /\ forall r, o = Some r -> contains d r = false.
Proof.
  revert b o. induction a as [|e a IH]; simpl; intros b o H Hd.
  - inversion H; subst. split; [reflexivity | discriminate].
  - apply orb_false_elim in Hd. destruct Hd as [Hd1 Hd2].
    destruct (Ascii.eqb c e).
    + inversion H; subst. split; [reflexivity|]. intros r Hr. now inversion Hr; subst.
    + destruct (partition c a) as [b' o'] eqn:E. inversion H; subst.
      destruct (IH b' o eq_refl Hd2) as [Hb Ho]. split; [|exact Ho].
      simpl. now rewrite Hd1, Hb.
Qed.

Lemma partition_before (c : ascii) (a b : string) (o : option string) :
  partition c a = (b, o) -> contains c b = false.
Proof.
  revert b o. induction a as [|e a IH]; simpl; intros b o H.
  - now inversion H.
  - destruct (Ascii.eqb c e) eqn:Ec.
    + now inversion H.
    + destruct (partition c a) as [b' o'] eqn:E. inversion H; subst.
      simpl. rewrite Ec. exact (IH b' o eq_refl).
Qed.

Lemma lstrip_app (f : ascii -> bool) (a x : string) (c : ascii) :
  f c = false ->
  lstrip f (a ++ String c x) = lstrip f a ++ String c x.
Proof.
  intros Hc. induction a as [|d a IH]; simpl.
  - now rewrite Hc.
  - destruct (f d); [exact IH | reflexivity].
Qed.

Lemma lstrip_contains (f : ascii -> bool) (d : ascii) (a : string) :
  contains d a = false -> contains d (lstrip f a) = false.
Proof.
  induction a as [|e a IH]; simpl; intros H; [reflexivity|].
  apply orb_false_elim in H. destruct H as [H1 H2].
  destruct (f e); [now apply IH|]. simpl. now rewrite H1, H2.
Qed.

Lemma remove_app (f : ascii -> bool) (a b : string) :
  remove f (a ++ b) = remove f a ++ remove f b.
Proof.
  induction a as [|d a IH]; simpl; [reflexivity|].
  rewrite IH. now destruct (f d).
Qed.

Lemma remove_contains (f : ascii -> bool) (d : ascii) (a : string) :
  contains d a = false -> contains d (remove f a) = false.
Proof.
  induction a as [|e a IH]; simpl; intros H; [reflexivity|].
  apply orb_false_elim in H. destruct H as [H1 H2].
  destruct (f e); [now apply IH|]. simpl. now rewrite H1, IH.
Qed.

Lemma all_app (f : ascii -> bool) (a b : string) :
  all f (a ++ b) = all f a && all f b.
Proof.
  induction a as [|d a IH]; simpl; [reflexivity|].
  rewrite IH. now rewrite andb_assoc.
Qed.

Lemma break_app (f : ascii -> bool) (a x : string) (c : ascii) :
  f c = true ->
  break f (a ++ String c x)
  = (fst (break f a), snd (break f a) ++ String c x).
Proof.
  intros Hc. induction a as [|d a IH]; simpl.
  - now rewrite Hc.
  - destruct (f d); [reflexivity|].
    rewrite IH. now destruct (break f a).
Qed.

Lemma break_contains (f : ascii -> bool) (d : ascii) (a : string) :
  contains d a = false -> contains d (snd (break f a)) = false.
Proof.
  induction a as [|e a IH]; simpl; intros H; [reflexivity|].
  apply orb_false_elim in H. destruct H as [H1 H2].
  destruct (f e); simpl; [now rewrite H1, H2|].
  specialize (IH H2). now destruct (break f a).
Qed.

Lemma rpartition_app (c : ascii) (a : string) :
  match rpartition c a with
  | (Some h, t) => a = h ++ t
  | (None, t) => a = t
  end.
Proof.
  induction a as [|d a IH]; simpl; [reflexivity|].
  destruct (rpartition c a) as [[h|] t]; subst.
  - reflexivity.
  - now destruct (Ascii.eqb c d).
Qed.

End StrFacts.

(** ** [urlparse] and query strings *)

Module UrllibFacts.
Import Str StrFacts Urllib.
Local Arguments Ascii.eqb : simpl never.

Example urlparse_query_and_fragment :
  urlparse (fun _ => false) (fun _ => false) "/api/health?x=1#top"
  = Py.Ret {| scheme := ""; netloc := ""; path := "/api/health";
              params := ""; query := "x=1"; fragment := "top" |}.
Proof. reflexivity. Qed.

Example urlparse_params_of_last_segment :
  urlparse (fun _ => false) (fun _ => false) "/a;b/c;d;e?x=1"
  = Py.Ret {| scheme := ""; netloc := ""; path := "/a;b/c";
              params := "d;e"; query := "x=1"; fragment := "" |}.
Proof. reflexivity. Qed.

Example urlparse_absolute_target :
  urlparse (fun _ => false) (fun _ => false) "HTTP://host:80/api/stocks?x"
  = Py.Ret {| scheme := "http"; netloc := "host:80"; path := "/api/stocks";
              params := ""; query := "x"; fragment := "" |}.
Proof. reflexivity. Qed.

Example urlparse_unmatched_bracket :
  urlparse (fun _ => false) (fun _ => false) "//[x/api/"
  = Py.Raise Py.ValueError.
Proof. reflexivity. Qed.

Lemma split_scheme_contains (d : ascii) (u : string) :
  contains d u = false -> contains d (snd (split_scheme u)) = false.
Proof.
  intros H. unfold split_scheme.
  destruct (partition ":" u) as [b o] eqn:E.
  destruct (partition_contains _ _ _ _ _ E H) as [_ Ho].
  destruct b as [|c0 b]; [now destruct o|].
  destruct o as [r|]; [|exact H].
  destruct (is_ascii_alpha c0 && all scheme_char (String c0 b)); simpl;
    [now apply Ho | exact H].
Qed.

Lemma split_scheme_query (u x : string) :
  contains "?" u = false ->
  split_scheme (u ++ String "?" x)
  = (fst (split_scheme u), snd (split_scheme u) ++ String "?" x).
Proof.
  intros H. unfold split_scheme.
  destruct (contains ":" u) eqn:Hc.
  - destruct (partition_present _ _ Hc) as (b & r & E).
    rewrite (partition_app_found _ _ (String "?" x) _ _ E), E.
    destruct b as [|c0 b]; [reflexivity|].
    now destruct (is_ascii_alpha c0 && all scheme_char (String c0 b)).
  - rewrite (partition_app_absent _ _ (String "?" x) Hc), (partition_absent _ _ Hc).
    simpl partition. destruct (partition ":" x) as [b o]. simpl fst. simpl snd.
    destruct o as [r|].
    + destruct u as [|c0 u]; simpl; [reflexivity|].
      rewrite all_app. simpl. rewrite !andb_false_r. reflexivity.
    + destruct u as [|c0 u]; reflexivity.
Qed.


Lemma split_netloc_query (u x : string) :
  split_netloc (u ++ String "?" x)
  = (fst (split_netloc u), snd (split_netloc u) ++ String "?" x).
Proof.
  unfold split_netloc.
  destruct u as [|c1 [|c2 rest]]; simpl.
  - reflexivity.
  - now destruct (Ascii.eqb "/" c1).
  - destruct (Ascii.eqb "/" c1 && (Ascii.eqb "/" c2 && true)); [|reflexivity].
    apply break_app. reflexivity.
Qed.

Lemma split_netloc_contains (d : ascii) (u : string) :
  contains d u = false -> contains d (snd (split_netloc u)) = false.
Proof.
  intros H. unfold split_netloc.
  destruct (startswith "//" u); [|exact H].
  destruct u as [|c1 [|c2 rest]]; try reflexivity.
  simpl in H. apply orb_false_elim in H. destruct H as [_ H].
  apply orb_false_elim in H. destruct H as [_ H].
  now apply break_contains.
Qed.

Lemma _splitparams_contains (d : ascii) (u : string) :
  contains d u = false -> contains d (fst (_splitparams u)) = false.
Proof.
  intros H. unfold _splitparams.
  pose proof (rpartition_app "/" u) as Hr.
  destruct (rpartition "/" u) as [[h|] t].
  - subst u. rewrite contains_app in H.
    apply orb_false_elim in H. destruct H as [Hh Ht].
    destruct (partition ";" t) as [seg o] eqn:E.
    destruct (partition_contains _ _ _ _ _ E Ht) as [Hseg _].
    destruct o; simpl.
    + now rewrite contains_app, Hh, Hseg.
    + now rewrite contains_app, Hh, Ht.
  - destruct (partition ";" u) as [seg o] eqn:E.
    destruct (partition_contains _ _ _ _ _ E H) as [Hseg _].
    now destruct o.
Qed.

Section Query.

Variables br nr : string -> bool.

(** The path component never holds a question mark. *)
Lemma urlparse_path_no_query (url : string) (pr : ParseResult) :
  urlparse br nr url = Py.Ret pr -> contains "?" (path pr) = false.
Proof.
  unfold urlparse.
  destruct (split_scheme _) as [s u1].
  destruct (split_netloc u1) as [n u2].
  destruct (netloc_error br nr n); [discriminate|].
  set (u3 := fst (match partition "#" u2 with
                  | (u, Some f) => (u, f)
                  | (_, None) => (u2, EmptyString)
                  end)).
  assert (Hu4 : contains "?"
            (fst (match partition "?" u3 with
                  | (u, Some q) => (u, q)
                  | (_, None) => (u3, EmptyString)
                  end)) = false).
  { destruct (partition "?" u3) as [b o] eqn:E.
    pose proof (partition_before _ _ _ _ E) as Hb.
    destruct o; simpl; [exact Hb|].
    destruct (contains "?" u3) eqn:Hc; [|reflexivity].
    destruct (partition_present _ _ Hc) as (b' & r & E').
    rewrite E' in E. discriminate. }
  subst u3.
  destruct (match partition "#" u2 with
            | (u, Some f) => (u, f)
            | (_, None) => (u2, EmptyString)
            end) as [u3 fr]. simpl fst in Hu4.
  destruct (match partition "?" u3 with
            | (u, Some q) => (u, q)
            | (_, None) => (u3, EmptyString)
            end) as [u4 qu]. simpl fst in Hu4.
  pose proof (_splitparams_contains "?" u4 Hu4) as Hsp.
  destruct (existsb (String.eqb s) uses_params && contains ";" u4).
  - destruct (_splitparams u4) as [u5 pa]. intros H. inversion H; subst.
    exact Hsp.
  - intros H. inversion H; subst. exact Hu4.
Qed.

(** Appending a query string to a URL that has neither a query nor a
    fragment changes nothing but the [query] and [fragment] fields. *)
Lemma urlparse_query (p q : string) :
  contains "?" p = false -> contains "#" p = false ->
  match urlparse br nr p with
  | Py.Ret pr =>
      exists pr', urlparse br nr (p ++ String "?" q) = Py.Ret pr'
                  /\ scheme pr' = scheme pr /\ netloc pr' = netloc pr
                  /\ path pr' = path pr /\ params pr' = params pr
  | r => urlparse br nr (p ++ String "?" q) = r
  end.
Proof.
  intros Hq Hf. unfold urlparse.
  rewrite (lstrip_app c0_control_or_space p q "?" eq_refl).
  rewrite remove_app. change (remove unsafe_url_byte (String "?" q))
    with (String "?" (remove unsafe_url_byte q)).
  set (u1 := remove unsafe_url_byte (lstrip c0_control_or_space p)).
  set (x1 := remove unsafe_url_byte q).
  assert (Hq1 : contains "?" u1 = false)
    by now apply remove_contains, lstrip_contains.
  assert (Hf1 : contains "#" u1 = false)
    by now apply remove_contains, lstrip_contains.
  rewrite (split_scheme_query u1 x1 Hq1).
  pose proof (split_scheme_contains "?" u1 Hq1) as Hq2.
  pose proof (split_scheme_contains "#" u1 Hf1) as Hf2.
  destruct (split_scheme u1) as [s u2]. simpl fst in *. simpl snd in *.
  rewrite split_netloc_query.
  pose proof (split_netloc_contains "?" u2 Hq2) as Hq3.
  pose proof (split_netloc_contains "#" u2 Hf2) as Hf3.
  destruct (split_netloc u2) as [n u3]. simpl fst in *. simpl snd in *.
  destruct (netloc_error br nr n); [reflexivity|].
  rewrite (partition_app_absent "#" u3 (String "?" x1) Hf3).
  rewrite (partition_absent "#" u3 Hf3).
  rewrite (partition_absent "?" u3 Hq3).
  change (partition "#" (String "?" x1))
    with (let (b, a) := partition "#" x1 in (String "?" b, a)).
  destruct (partition "#" x1) as [b a]. simpl fst. simpl snd.
  assert (Hpq : forall y, partition "?" (u3 ++ String "?" y) = (u3, Some y)).
  { intros y. rewrite (partition_app_absent "?" u3 (String "?" y) Hq3).
    change (partition "?" (String "?" y)) with (EmptyString, Some y).
    simpl. now rewrite app_empty_r. }
  destruct a as [fr|]; rewrite Hpq;
    destruct (existsb (String.eqb s) uses_params && contains ";" u3);
    destruct (_splitparams u3); eexists; repeat split; reflexivity.
Qed.
End Query.
End UrllibFacts.

(** ** The mock API and the preflight handler *)

Module HandlerFacts.

Import Handler AlfalyzerHandler Json Expected.

Section Routing.

Variable rt : runtime.

Lemma do_GET_api (self : Handler.t) (pr : Urllib.ParseResult) :
  urlparse rt (path self) = Py.Ret pr ->
  Str.startswith "/api/" (Urllib.path pr) = true ->
  do_GET rt self = handle_api_request rt pr self.
Proof.
  intros Hp Hs. unfold do_GET, Py.bind, Py.get, Py.lift.
  rewrite Hp, Hs. reflexivity.
Qed.

Lemma do_GET_raises (self : Handler.t) (e : Py.exc) :
  urlparse rt (path self) = Py.Raise e ->
  do_GET rt self = (Py.Raise e, self).
Proof.
  intros Hp. unfold do_GET, Py.bind, Py.get, Py.lift.
  rewrite Hp. reflexivity.
Qed.

(** The three branches of the API handler on an HTTP/1.x request. *)
Lemma GET_health (p : string) (d : dir) (pr : Urllib.ParseResult) :
  urlparse rt p = Py.Ret pr ->
  Urllib.path pr = "/api/health" ->
  GET rt p d = (Py.Ret tt, [api_block rt; Body (health_body rt)]).
Proof.
  intros Hp Hpath. unfold GET.
  rewrite (do_GET_api (fresh HTTP_1 p d) pr Hp) by now rewrite Hpath.
  unfold handle_api_request. rewrite Hpath. reflexivity.
Qed.

Lemma GET_stocks (p : string) (d : dir) (pr : Urllib.ParseResult) :
  urlparse rt p = Py.Ret pr ->
  Urllib.path pr = "/api/stocks" ->
  GET rt p d = (Py.Ret tt, [api_block rt; Body (stocks_body rt)]).
Proof.
  intros Hp Hpath. unfold GET.
  rewrite (do_GET_api (fresh HTTP_1 p d) pr Hp) by now rewrite Hpath.
  unfold handle_api_request. rewrite Hpath. reflexivity.
Qed.

Lemma handle_unknown (self : Handler.t) (pr : Urllib.ParseResult) :
  Urllib.path pr <> "/api/health" ->
  Urllib.path pr <> "/api/stocks" ->
  handle_api_request rt pr self
  = (send_response rt 200 ;;
     send_header "Content-Type" "application/json" ;;
     send_header "Access-Control-Allow-Origin" "*" ;;
     send_header "Access-Control-Allow-Methods" "GET, POST, OPTIONS" ;;
     send_header "Access-Control-Allow-Headers" "Content-Type, Authorization" ;;
     end_headers ;;
     send_response rt 404 ;;
     wfile_write (not_found_body (Urllib.path pr))) self.
Proof.
  intros H1 H2. unfold handle_api_request.
  apply String.eqb_neq in H1. apply String.eqb_neq in H2.
  rewrite H1, H2. reflexivity.
Qed.

Lemma GET_unknown (p : string) (d : dir) (pr : Urllib.ParseResult) :
  urlparse rt p = Py.Ret pr ->
  Str.startswith "/api/" (Urllib.path pr) = true ->
  Urllib.path pr <> "/api/health" ->
  Urllib.path pr <> "/api/stocks" ->
  do_GET rt (fresh HTTP_1 p d)
  = (Py.Ret tt,
     {| request_version := HTTP_1; path := p; directory := d;
        headers_buffer := [ StatusLine 404;
                            Header "Server" (version_string rt);
                            Header "Date" (date_time_string rt) ];
        wfile := [ api_block rt; Body (not_found_body (Urllib.path pr)) ];
        log := [200; 404] |}).
Proof.
  intros Hp Hs H1 H2.
  rewrite (do_GET_api (fresh HTTP_1 p d) pr Hp Hs).
  rewrite (handle_unknown _ pr H1 H2). reflexivity.
Qed.

(** The API handler reads nothing of the request but the parsed path. *)
Lemma GET_depends_on_path (p1 p2 : string) (d : dir)
      (pr1 pr2 : Urllib.ParseResult) :
  urlparse rt p1 = Py.Ret pr1 ->
  urlparse rt p2 = Py.Ret pr2 ->
  Urllib.path pr1 = Urllib.path pr2 ->
  Str.startswith "/api/" (Urllib.path pr1) = true ->
  GET rt p1 d = GET rt p2 d.
Proof.
  intros Hp1 Hp2 Heq Hs. unfold GET.
  rewrite (do_GET_api (fresh HTTP_1 p1 d) pr1 Hp1 Hs).
  rewrite Heq in Hs.
  rewrite (do_GET_api (fresh HTTP_1 p2 d) pr2 Hp2 Hs).
  unfold handle_api_request. rewrite Heq.
  destruct (String.eqb (Urllib.path pr2) "/api/health"); [reflexivity|].
  destruct (String.eqb (Urllib.path pr2) "/api/stocks"); reflexivity.
Qed.

End Routing.

(** C6. A GET request whose path is /api/health is answered with
    status 200 and Content-Type application/json, and its JSON body has
    the keys status, server, timestamp, python_version and platform,
    with status "healthy" and server "emergency-python-server". *)
Theorem health_reply (rt : runtime) (p : string) (d : dir)
        (pr : Urllib.ParseResult) :
  urlparse rt p = Py.Ret pr ->
  Urllib.path pr = "/api/health" ->
  exists wire body,
    GET rt p d = (Py.Ret tt, wire)
    /\ status wire = Some 200
    /\ header "Content-Type" wire = Some "application/json"
    /\ bodies wire = [body]
    /\ incl ["status"; "server"; "timestamp"; "python_version"; "platform"]
             (keys body)
    /\ Json.get "status" body = Some (JString "healthy")
    /\ Json.get "server" body = Some (JString "emergency-python-server").
Proof.
  intros Hp Hpath.
  exists [api_block rt; Body (health_body rt)], (health_body rt).
  rewrite (GET_health rt p d pr Hp Hpath).
  repeat split. apply incl_refl.
Qed.

Lemma health_reply_witness :
  urlparse Sample.rt "/api/health"
  = Py.Ret {| Urllib.scheme := ""; Urllib.netloc := "";
              Urllib.path := "/api/health"; Urllib.params := "";
              Urllib.query := ""; Urllib.fragment := "" |}
  /\ exists wire body,
       GET Sample.rt "/api/health" DistPublic = (Py.Ret tt, wire)
       /\ status wire = Some 200
       /\ header "Content-Type" wire = Some "application/json"
       /\ bodies wire = [body]
       /\ incl ["status"; "server"; "timestamp"; "python_version"; "platform"]
                (keys body)
       /\ Json.get "status" body = Some (JString "healthy")
       /\ Json.get "server" body = Some (JString "emergency-python-server").
Proof.
  split; [reflexivity|].
  apply (health_reply Sample.rt "/api/health" DistPublic
           {| Urllib.scheme := ""; Urllib.netloc := "";
              Urllib.path := "/api/health"; Urllib.params := "";
              Urllib.query := ""; Urllib.fragment := "" |});
    reflexivity.
Defined.

(** C7. A GET request whose path is /api/stocks is answered with status
    200 and a JSON body whose data field is an array of four objects,
    each with the keys symbol, price and change; the array is the
    constant [stocks_data], the same for every request, runtime and
    handler. *)
Theorem stocks_reply (rt : runtime) (p : string) (d : dir)
        (pr : Urllib.ParseResult) :
  urlparse rt p = Py.Ret pr ->
  Urllib.path pr = "/api/stocks" ->
  exists wire body,
    GET rt p d = (Py.Ret tt, wire)
    /\ status wire = Some 200
    /\ bodies wire = [body]
    /\ Json.get "data" body = Some (JArray stocks_data)
    /\ List.length stocks_data = 4%nat
    /\ Forall (fun o => keys o = ["symbol"; "price"; "change"]) stocks_data.
Proof.
  intros Hp Hpath.
  exists [api_block rt; Body (stocks_body rt)], (stocks_body rt).
  rewrite (GET_stocks rt p d pr Hp Hpath).
  repeat split. repeat constructor.
Qed.

Lemma stocks_reply_witness :
  urlparse Sample.rt "/api/stocks"
  = Py.Ret {| Urllib.scheme := ""; Urllib.netloc := "";
              Urllib.path := "/api/stocks"; Urllib.params := "";
              Urllib.query := ""; Urllib.fragment := "" |}
  /\ exists wire body,
       GET Sample.rt "/api/stocks" TempPublic = (Py.Ret tt, wire)
       /\ status wire = Some 200
       /\ bodies wire = [body]
       /\ Json.get "data" body = Some (JArray stocks_data)
       /\ List.length stocks_data = 4%nat
       /\ Forall (fun o => keys o = ["symbol"; "price"; "change"]) stocks_data.
Proof.
  split; [reflexivity|].
  apply (stocks_reply Sample.rt "/api/stocks" TempPublic
           {| Urllib.scheme := ""; Urllib.netloc := "";
              Urllib.path := "/api/stocks"; Urllib.params := "";
              Urllib.query := ""; Urllib.fragment := "" |});
    reflexivity.
Defined.

(** C8. An OPTIONS request is answered, whatever its path, with status
    200, the three CORS headers and no body. *)
Theorem options_reply (rt : runtime) (p : string) (d : dir) :
  exists wire,
    OPTIONS rt p d = (Py.Ret tt, wire)
    /\ status wire = Some 200
    /\ bodies wire = []
    /\ header "Access-Control-Allow-Origin" wire = Some "*"
    /\ header "Access-Control-Allow-Methods" wire
       = Some "GET, POST, OPTIONS"
    /\ header "Access-Control-Allow-Headers" wire
       = Some "Content-Type, Authorization".
Proof.
  eexists. repeat split.
Qed.

(** A request line without a version is HTTP/0.9: [http.server] then
    writes no status line and no header, and the reply is the bare
    body. The replies below are those to HTTP/1.x request lines. *)
Lemma health_reply_0_9 (rt : runtime) (d : dir) :
  reply (do_GET rt (fresh HTTP_0_9 "/api/health" d))
  = (Py.Ret tt, [Body (health_body rt)]).
Proof. reflexivity. Qed.

(** C3. A GET request whose path starts with /api/ and is neither
    /api/health nor /api/stocks: the handler makes the calls of a 200
    reply with the JSON and CORS headers and ends the headers, then
    calls [send_response(404)], then writes a JSON body with exactly
    the keys error, path and server. On the wire the 200 block is
    followed by the body; the 404 status line is logged and left in
    the header buffer. *)
Theorem unknown_api_reply (rt : runtime) (p : string) (d : dir)
        (pr : Urllib.ParseResult) :
  urlparse rt p = Py.Ret pr ->
  Str.startswith "/api/" (Urllib.path pr) = true ->
  Urllib.path pr <> "/api/health" ->
  Urllib.path pr <> "/api/stocks" ->
  exists body,
    (forall self : Handler.t,
       do_GET rt (set_path p self)
       = (send_response rt 200 ;;
          send_header "Content-Type" "application/json" ;;
          send_header "Access-Control-Allow-Origin" "*" ;;
          send_header "Access-Control-Allow-Methods" "GET, POST, OPTIONS" ;;
          send_header "Access-Control-Allow-Headers"
                      "Content-Type, Authorization" ;;
          end_headers ;;
          send_response rt 404 ;;
          wfile_write body) (set_path p self))
    /\ do_GET rt (fresh HTTP_1 p d)
       = (Py.Ret tt,
          {| request_version := HTTP_1; path := p; directory := d;
             headers_buffer := [ StatusLine 404;
                                 Header "Server" (version_string rt);
                                 Header "Date" (date_time_string rt) ];
             wfile := [ HeaderBlock
                          [ StatusLine 200;
                            Header "Server" (version_string rt);
                            Header "Date" (date_time_string rt);
                            Header "Content-Type" "application/json";
                            Header "Access-Control-Allow-Origin" "*";
                            Header "Access-Control-Allow-Methods"
                                   "GET, POST, OPTIONS";
                            Header "Access-Control-Allow-Headers"
                                   "Content-Type, Authorization";
                            BlankLine ];
                        Body body ];
             log := [200; 404] |})
    /\ body = JObject [("error", JString "API endpoint not found");
                       ("path", JString (Urllib.path pr));
                       ("server", JString "emergency-python-server")]
    /\ keys body = ["error"; "path"; "server"].
Proof.
  intros Hp Hs H1 H2. exists (not_found_body (Urllib.path pr)).
  split; [|split; [|split; reflexivity]].
  - intros self.
    rewrite (do_GET_api rt (set_path p self) pr Hp Hs).
    apply handle_unknown; assumption.
  - apply GET_unknown; assumption.
Qed.

Lemma unknown_api_reply_witness :
  urlparse Sample.rt "/api/unknown-thing"
  = Py.Ret {| Urllib.scheme := ""; Urllib.netloc := "";
              Urllib.path := "/api/unknown-thing"; Urllib.params := "";
              Urllib.query := ""; Urllib.fragment := "" |}
  /\ wfile (snd (do_GET Sample.rt
                    (fresh HTTP_1 "/api/unknown-thing" ClientPublic)))
     = [ api_block Sample.rt; Body (not_found_body "/api/unknown-thing") ]
  /\ log (snd (do_GET Sample.rt
                  (fresh HTTP_1 "/api/unknown-thing" ClientPublic)))
     = [200; 404].
Proof.
  split; [reflexivity|].
  destruct (unknown_api_reply Sample.rt "/api/unknown-thing" ClientPublic
              {| Urllib.scheme := ""; Urllib.netloc := "";
                 Urllib.path := "/api/unknown-thing"; Urllib.params := "";
                 Urllib.query := ""; Urllib.fragment := "" |}
              eq_refl eq_refl ltac:(discriminate) ltac:(discriminate))
    as (body & _ & Hrun & Hbody & _).
  rewrite Hrun, Hbody. split; reflexivity.
Defined.

Lemma urlparse_with_query (rt : runtime) (p q : string) :
  Str.contains "?" p = false -> Str.contains "#" p = false ->
  match urlparse rt p with
  | Py.Ret pr =>
      exists pr', urlparse rt (p ++ String "?" q) = Py.Ret pr'
                  /\ Urllib.path pr' = Urllib.path pr
  | r => urlparse rt (p ++ String "?" q) = r
  end.
Proof.
  intros Hq Hf. unfold urlparse.
  pose proof (UrllibFacts.urlparse_query (bracketed_netloc_rejected rt)
                (nfkc_netloc_rejected rt) p q Hq Hf) as H.
  destruct (Urllib.urlparse _ _ p); try exact H.
  destruct H as (pr' & H1 & _ & _ & H2 & _). now exists pr'.
Qed.

Lemma GET_with_query (rt : runtime) (d : dir) (p q : string)
      (pr : Urllib.ParseResult) :
  Str.contains "?" p = false -> Str.contains "#" p = false ->
  urlparse rt p = Py.Ret pr ->
  Str.startswith "/api/" (Urllib.path pr) = true ->
  GET rt (p ++ String "?" q) d = GET rt p d.
Proof.
  intros Hq Hf Hp Hs.
  pose proof (urlparse_with_query rt p q Hq Hf) as H. rewrite Hp in H.
  destruct H as (pr' & Hp' & Hpath).
  apply (GET_depends_on_path rt _ _ d pr' pr Hp' Hp Hpath).
  now rewrite Hpath.
Qed.

(** C9. Routing and the replies of the API handler depend on the path
    component of the request target only: a target parses to the same
    path with or without a query string, so GET /api/health?q is
    answered like GET /api/health and GET /api/stocks?q like GET
    /api/stocks, and so is every target routed to the API handler; the
    path echoed in the body for an unknown API path is the path
    component, which holds no question mark. *)
Theorem query_string_ignored (rt : runtime) (d : dir) :
  (forall p q : string,
     Str.contains "?" p = false -> Str.contains "#" p = false ->
     match urlparse rt p with
     | Py.Ret pr =>
         exists pr', urlparse rt (p ++ String "?" q) = Py.Ret pr'
                     /\ Urllib.path pr' = Urllib.path pr
     | r => urlparse rt (p ++ String "?" q) = r
     end)
  /\ (forall q : string,
        GET rt ("/api/health?" ++ q) d = GET rt "/api/health" d)
  /\ (forall q : string,
        GET rt ("/api/stocks?" ++ q) d = GET rt "/api/stocks" d)
  /\ (forall (p q : string) (pr : Urllib.ParseResult),
        Str.contains "?" p = false -> Str.contains "#" p = false ->
        urlparse rt p = Py.Ret pr ->
        Str.startswith "/api/" (Urllib.path pr) = true ->
        GET rt (p ++ String "?" q) d = GET rt p d)
  /\ (forall (target : string) (pr : Urllib.ParseResult),
        urlparse rt target = Py.Ret pr ->
        Str.startswith "/api/" (Urllib.path pr) = true ->
        Urllib.path pr <> "/api/health" ->
        Urllib.path pr <> "/api/stocks" ->
        bodies (snd (GET rt target d))
        = [ JObject [("error", JString "API endpoint not found");
                     ("path", JString (Urllib.path pr));
                     ("server", JString "emergency-python-server")] ]
        /\ Str.contains "?" (Urllib.path pr) = false).
Proof.
  split; [|split; [|split; [|split]]].
  - apply urlparse_with_query.
  - intros q.
    apply (GET_with_query rt d "/api/health" q
             {| Urllib.scheme := ""; Urllib.netloc := "";
                Urllib.path := "/api/health"; Urllib.params := "";
                Urllib.query := ""; Urllib.fragment := "" |});
      reflexivity.
  - intros q.
    apply (GET_with_query rt d "/api/stocks" q
             {| Urllib.scheme := ""; Urllib.netloc := "";
                Urllib.path := "/api/stocks"; Urllib.params := "";
                Urllib.query := ""; Urllib.fragment := "" |});
      reflexivity.
  - intros p q pr. apply GET_with_query.
  - intros target pr Hp Hs H1 H2. split.
    + unfold GET. rewrite (GET_unknown rt target d pr Hp Hs H1 H2).
      reflexivity.
    + exact (UrllibFacts.urlparse_path_no_query _ _ _ _ Hp).
Qed.

Lemma query_string_ignored_witness :
  GET Sample.rt "/api/nothing?verbose=1#top" DistPublic
  = GET Sample.rt "/api/nothing" DistPublic
  /\ bodies (snd (GET Sample.rt "/api/nothing?verbose=1#top" DistPublic))
     = [ not_found_body "/api/nothing" ].
Proof.
  destruct (query_string_ignored Sample.rt DistPublic)
    as (_ & _ & _ & Hsame & Hecho).
  split.
  - apply (Hsame "/api/nothing" "verbose=1#top"
             {| Urllib.scheme := ""; Urllib.netloc := "";
                Urllib.path := "/api/nothing"; Urllib.params := "";
                Urllib.query := ""; Urllib.fragment := "" |});
      reflexivity.
  - apply (Hecho "/api/nothing?verbose=1#top"
             {| Urllib.scheme := ""; Urllib.netloc := "";
                Urllib.path := "/api/nothing"; Urllib.params := "";
                Urllib.query := "verbose=1"; Urllib.fragment := "top" |});
      try reflexivity; discriminate.
Defined.

(** C10. A GET request for /api, without the slash, does not start with
    the prefix /api/ and is left to the static file server, with
    [self.path] untouched. *)
Theorem api_without_slash_is_static (rt : runtime) (self : Handler.t) :
  Str.startswith "/api/" "/api" = false
  /\ do_GET rt (set_path "/api" self)
     = (Py.Ret tt, SimpleHTTPRequestHandler_do_GET rt (set_path "/api" self)).
Proof.
  split; reflexivity.
Qed.

End HandlerFacts.

(** ** Serving connections *)

Module ServerFacts.

Import Handler Process Server Expected.
Local Open Scope list_scope.

Lemma urlparse_outcome (rt : runtime) (url : string) :
  (exists pr, urlparse rt url = Py.Ret pr)
  \/ urlparse rt url = Py.Raise Py.ValueError.
Proof.
  unfold urlparse, Urllib.urlparse.
  destruct (Urllib.split_scheme _) as [s u1].
  destruct (Urllib.split_netloc u1) as [n u2].
  destruct (Urllib.netloc_error _ _ n); [now right|].
  destruct (match Str.partition "#" u2 with
            | (u, Some f) => (u, f)
            | (_, None) => (u2, EmptyString)
            end) as [u3 fr].
  destruct (match Str.partition "?" u3 with
            | (u, Some q) => (u, q)
            | (_, None) => (u3, EmptyString)
            end) as [u4 qu].
  match goal with
  | |- context [let (_, _) := ?x in _] => destruct x as [u5 pa]
  end.
  left. eexists. reflexivity.
Qed.

(** A [do_] method returns, or raises the [ValueError] of [urlparse]. *)
Lemma handle_api_request_returns (rt : runtime) (pr : Urllib.ParseResult)
      (self : Handler.t) :
  fst (AlfalyzerHandler.handle_api_request rt pr self) = Py.Ret tt.
Proof.
  unfold AlfalyzerHandler.handle_api_request.
  destruct self as [v p d b wf l].
  destruct (String.eqb (Urllib.path pr) "/api/health");
    [now destruct v|].
  destruct (String.eqb (Urllib.path pr) "/api/stocks"); now destruct v.
Qed.

Lemma do_GET_outcome (rt : runtime) (self : Handler.t) :
  fst (AlfalyzerHandler.do_GET rt self) = Py.Ret tt
  \/ fst (AlfalyzerHandler.do_GET rt self) = Py.Raise Py.ValueError.
Proof.
  destruct (urlparse_outcome rt (path self)) as [[pr Hp] | Hp].
  - left. destruct (Str.startswith "/api/" (Urllib.path pr)) eqn:Hs.
    + rewrite (HandlerFacts.do_GET_api rt self pr Hp Hs).
      apply handle_api_request_returns.
    + unfold AlfalyzerHandler.do_GET, Py.bind, Py.get, Py.lift.
      rewrite Hp, Hs.
      now destruct (String.eqb (Urllib.path pr) "/"
                    || String.eqb (Urllib.path pr) "").
  - right. now rewrite (HandlerFacts.do_GET_raises rt self _ Hp).
Qed.

Lemma do_OPTIONS_returns (rt : runtime) (self : Handler.t) :
  fst (AlfalyzerHandler.do_OPTIONS rt self) = Py.Ret tt.
Proof.
  destruct self as [v p d b wf l]. now destruct v.
Qed.

Lemma super_init_outcome (conn : Connection.t) (p : Process.t) :
  exists h,
    AlfalyzerHandler.super_init conn p = (Py.Ret tt, record (Handled h) p)
    \/ AlfalyzerHandler.super_init conn p
       = (Py.Raise Py.ValueError, record (Handled h) p).
Proof.
  unfold AlfalyzerHandler.super_init, Py.bind, Py.get.
  destruct (Connection.command conn).
  - pose proof (do_GET_outcome (Connection.runtime conn)
                  (fresh (Connection.version conn) (Connection.path conn)
                         (cwd p))) as H.
    destruct (AlfalyzerHandler.do_GET _ _) as [r h]. exists h.
    simpl in H. destruct H as [H | H]; subst r; [left | right]; reflexivity.
  - eexists. left. reflexivity.
  - pose proof (do_OPTIONS_returns (Connection.runtime conn)
                  (fresh (Connection.version conn) (Connection.path conn)
                         (cwd p))) as H.
    destruct (AlfalyzerHandler.do_OPTIONS _ _) as [r h]. exists h.
    simpl in H. subst r. left. reflexivity.
  - eexists. left. reflexivity.
Qed.

Lemma quiet_app (a b : list event) : quiet a -> quiet b -> quiet (a ++ b).
Proof.
  unfold quiet, tried, listened, served.
  intros (Ha1 & Ha2 & Ha3) (Hb1 & Hb2 & Hb3).
  rewrite !flat_map_app, Ha1, Ha2, Ha3, Hb1, Hb2, Hb3. now repeat split.
Qed.

Lemma roots_app (a b : list event) : roots (a ++ b) = roots a ++ roots b.
Proof. apply flat_map_app. Qed.

Ltac run_super_init conn :=
  match goal with
  | |- context [AlfalyzerHandler.super_init conn ?s] =>
      let h := fresh "h" in
      let H := fresh "H" in
      destruct (super_init_outcome conn s) as [h [H | H]]; rewrite H
  end;
  do 3 eexists; (split; [reflexivity|]); (split; [auto|]);
  simpl; rewrite <- !app_assoc; simpl; repeat split; auto.

Lemma init_outcome (conn : Connection.t) (p : Process.t) :
  exists r p' es,
    AlfalyzerHandler.__init__ conn p = (r, p')
    /\ (r = Py.Ret tt \/ r = Py.Raise Py.ValueError)
    /\ trace p' = trace p ++ es
    /\ dist_exists p' = dist_exists p
    /\ client_exists p' = client_exists p
    /\ quiet es
    /\ roots es = [root_for (dist_exists p) (client_exists p)]
    /\ cwd p' = root_for (dist_exists p) (client_exists p).
Proof.
  unfold AlfalyzerHandler.__init__, AlfalyzerHandler.create_basic_files,
    Py.bind, Py.get, chdir, print, emit, mkdir_temp, write_index,
    Py.modify.
  destruct (dist_exists p) eqn:Hd; [|destruct (client_exists p) eqn:Hc].
  - run_super_init conn.
  - run_super_init conn.
  - run_super_init conn; now destruct (temp_exists p).
Qed.

Lemma process_request_outcome (conn : Connection.t) (p : Process.t) :
  exists p' es,
    process_request conn p = (Py.Ret tt, p')
    /\ trace p' = trace p ++ es
    /\ dist_exists p' = dist_exists p
    /\ client_exists p' = client_exists p
    /\ quiet es
    /\ roots es = [root_for (dist_exists p) (client_exists p)].
Proof.
  destruct (init_outcome conn p)
    as (r & p' & es & E & [Hr | Hr] & Ht & Hd & Hc & Hq & Hroots & _);
    subst r; unfold process_request, Py.try_except; rewrite E.
  - exists p', es. simpl. auto 10.
  - exists (record (HandleError Py.ValueError) p'),
           (es ++ [HandleError Py.ValueError]).
    simpl. rewrite Ht, app_assoc, roots_app, Hroots.
    assert (quiet (es ++ [HandleError Py.ValueError]))
      by (apply quiet_app; [exact Hq | now repeat split]).
    auto 10.
Qed.

(** The connections of one [serve_forever]: each resolves the root
    again, and with the file system unchanged to the same directory. *)
Lemma for_each_outcome (conns : list Connection.t) (p : Process.t) :
  exists p' es,
    Py.for_each conns process_request p = (Py.Ret tt, p')
    /\ trace p' = trace p ++ es
    /\ quiet es
    /\ roots es = repeat (root_for (dist_exists p) (client_exists p))
                         (List.length conns).
Proof.
  revert p. induction conns as [|conn conns IH]; intros p.
  - exists p, []. simpl. rewrite app_nil_r.
    assert (quiet []) by now repeat split. auto.
  - destruct (process_request_outcome conn p)
      as (p1 & es1 & E1 & Ht1 & Hd1 & Hc1 & Hq1 & Hr1).
    destruct (IH p1) as (p2 & es2 & E2 & Ht2 & Hq2 & Hr2).
    exists p2, (es1 ++ es2). simpl. unfold Py.bind. rewrite E1, E2.
    rewrite Ht2, Ht1, app_assoc, roots_app, Hr1, Hr2, Hd1, Hc1.
    pose proof (quiet_app _ _ Hq1 Hq2). auto.
Qed.

Section Loop.

Variable w : world.

Lemma attempt_skips (c : candidate) (p : Process.t) :
  probe w c = Some Py.OSError ->
  attempt w c p
  = (Py.Ret Py.Continue,
     record (Print (NotAvailable c)) (record (Print (Trying c)) p)).
Proof.
  intros H. destruct c as [port host].
  unfold attempt, try_port, with_TCPServer, TCPServer, Py.try_except,
    Py.bind, print, emit, Py.modify.
  rewrite H. reflexivity.
Qed.

Lemma attempt_serves (c : candidate) (p : Process.t) :
  probe w c = None -> bind w c = None ->
  exists p' es,
    attempt w c p = after_serving w c p'
    /\ trace p' = trace p ++ bound_events c ++ es
    /\ quiet es
    /\ roots es = repeat (root_for (dist_exists p) (client_exists p))
                         (List.length (arrivals w c)).
Proof.
  intros Hprobe Hbind. destruct c as [port host].
  unfold attempt, try_port, serve_forever, with_TCPServer, TCPServer,
    Py.try_except, Py.finally, Py.bind, print, emit, Py.modify.
  rewrite Hprobe, Hbind. simpl.
  match goal with
  | |- context [Py.for_each _ process_request ?s] =>
      destruct (for_each_outcome (arrivals w (port, host)) s)
        as (p' & es & E & Ht & Hq & Hr); rewrite E
  end.
  exists p', es. split; [|split; [|split]].
  - unfold after_serving.
    destruct (serve_end w (port, host)) as [[]|]; reflexivity.
  - rewrite Ht. simpl. rewrite <- !app_assoc. reflexivity.
  - exact Hq.
  - exact Hr.
Qed.

(** Whatever happens on a candidate, what was printed stays printed. *)
Lemma attempt_extends (c : candidate) (p : Process.t) :
  exists es, trace (snd (attempt w c p)) = trace p ++ es.
Proof.
  destruct (probe w c) as [e1|] eqn:Hprobe;
    [|destruct (bind w c) as [e2|] eqn:Hbind].
  - destruct c as [port host].
    unfold attempt, try_port, with_TCPServer, TCPServer, Py.try_except,
      Py.bind, print, emit, Py.modify.
    rewrite Hprobe.
    destruct e1; simpl; rewrite <- ?app_assoc; eexists; reflexivity.
  - destruct c as [port host].
    unfold attempt, try_port, with_TCPServer, TCPServer, Py.try_except,
      Py.finally, Py.bind, print, emit, Py.modify.
    rewrite Hprobe, Hbind.
    destruct e2; simpl; rewrite <- ?app_assoc; eexists; reflexivity.
  - destruct (attempt_serves c p Hprobe Hbind) as (p' & es & E & Ht & _).
    rewrite E. unfold after_serving.
    destruct (serve_end w c) as [[]|]; simpl; rewrite Ht;
      rewrite <- ?app_assoc; eexists; reflexivity.
Qed.

Lemma for_loop_extends (cs : list candidate) (p : Process.t) :
  exists es, trace (snd (Py.for_loop cs (attempt w) p)) = trace p ++ es.
Proof.
  revert p. induction cs as [|c cs IH]; intros p; simpl.
  - exists []. now rewrite app_nil_r.
  - unfold Py.bind. destruct (attempt_extends c p) as [es1 H1].
    destruct (attempt w c p) as [[[]| |] p1]; simpl in H1.
    + destruct (IH p1) as [es2 H2]. rewrite H2, H1, <- app_assoc. eauto.
    + simpl. eauto.
    + simpl. eauto.
    + simpl. eauto.
Qed.

(** The candidates whose probe fails are announced and passed over. *)
Lemma for_loop_skips (pre rest : list candidate) (p : Process.t) :
  (forall c, In c pre -> probe w c = Some Py.OSError) ->
  exists p',
    Py.for_loop (pre ++ rest) (attempt w) p
    = Py.for_loop rest (attempt w) p'
    /\ trace p' = trace p ++ flat_map skip_events pre
    /\ dist_exists p' = dist_exists p
    /\ client_exists p' = client_exists p.
Proof.
  revert p. induction pre as [|c pre IH]; intros p Hbusy.
  - exists p. simpl. now rewrite app_nil_r.
  - destruct (IH (record (Print (NotAvailable c))
                   (record (Print (Trying c)) p)))
      as (p' & E & Ht & Hd & Hc).
    { intros c' Hin. apply Hbusy. now right. }
    exists p'. simpl. unfold Py.bind at 1.
    rewrite (attempt_skips c p (Hbusy c (or_introl eq_refl))).
    rewrite E, Ht. simpl. rewrite <- !app_assoc. auto.
Qed.

Lemma start_server_unfold (p : Process.t) :
  start_server w p
  = after_loop (Py.for_loop strategies (attempt w)
                  (record (Print Rule) (record (Print Banner) p))).
Proof.
  unfold start_server, after_loop, sys_exit, Py.bind, print, emit,
    Py.modify, Py.raise.
  now destruct (Py.for_loop strategies (attempt w) _) as [[] ?].
Qed.

Lemma run_unfold (p : Process.t) :
  run w p
  = match start_server w p with
    | (Py.Raise Py.KeyboardInterrupt, p') =>
        (Exit 0, trace p' ++ [Print Goodbye])
    | (Py.Raise (Py.SystemExit code), p') => (Exit code, trace p')
    | (Py.Raise e, p') => (Exit 1, trace p' ++ [Print (FatalError e)])
    | (Py.Ret _, p') => (Exit 0, trace p')
    | (Py.Blocked, p') => (Running, trace p')
    end.
Proof.
  unfold run, main, Py.try_except.
  destruct (start_server w p) as [[[]|[]|] p']; reflexivity.
Qed.

Lemma tried_skips (cs : list candidate) :
  tried (flat_map skip_events cs) = cs
  /\ listened (flat_map skip_events cs) = []
  /\ served (flat_map skip_events cs) = []
  /\ roots (flat_map skip_events cs) = [].
Proof.
  induction cs as [|c cs (IH1 & IH2 & IH3 & IH4)]; simpl;
    [now repeat split|].
  unfold tried, listened, served, roots in *. simpl.
  rewrite IH1, IH2, IH3, IH4. now repeat split.
Qed.

Lemma split_strategies (n : nat) (c : candidate) :
  nth_error strategies n = Some c ->
  exists post, strategies = firstn n strategies ++ c :: post.
Proof.
  intros H. destruct (nth_error_split _ _ H) as (l1 & l2 & E & Hlen).
  exists l2. rewrite E at 2. rewrite firstn_app, Hlen, Nat.sub_diag.
  simpl. rewrite app_nil_r. rewrite <- Hlen, firstn_all. exact E.
Qed.

(** The run up to the blocking call on the first free candidate. *)
Lemma run_reaches_serving (p : Process.t) (n : nat) (c : candidate) :
  nth_error strategies n = Some c ->
  (forall c', In c' (firstn n strategies) -> probe w c' = Some Py.OSError) ->
  probe w c = None -> bind w c = None ->
  exists rest,
    snd (run w p)
    = trace p ++ [Print Banner; Print Rule]
      ++ flat_map skip_events (firstn n strategies)
      ++ bound_events c ++ rest.
Proof.
  intros Hn Hbusy Hprobe Hbind.
  destruct (split_strategies n c Hn) as [post Hsplit].
  rewrite run_unfold, start_server_unfold.
  set (p0 := record (Print Rule) (record (Print Banner) p)).
  destruct (for_loop_skips (firstn n strategies) (c :: post) p0 Hbusy)
    as (p1 & E1 & Ht1 & _).
  rewrite <- Hsplit in E1. rewrite E1.
  simpl Py.for_loop. unfold Py.bind at 1.
  destruct (attempt_serves c p1 Hprobe Hbind) as (p2 & es & E2 & Ht2 & _).
  rewrite E2.
  assert (Hp2 : trace p2
                = trace p ++ [Print Banner; Print Rule]
                  ++ flat_map skip_events (firstn n strategies)
                  ++ bound_events c ++ es).
  { rewrite Ht2, Ht1. unfold p0. simpl. now rewrite <- !app_assoc. }
  unfold after_serving.
  destruct (serve_end w c) as [[]|]; simpl.
  1,2,6: rewrite Hp2, <- ?app_assoc; simpl; rewrite <- ?app_assoc;
    eexists; repeat f_equal.
  all: match goal with
       | |- context [Py.for_loop ?l (attempt w) ?q] =>
           destruct (for_loop_extends l q) as [es3 H3];
           destruct (Py.for_loop l (attempt w) q) as [[[]|[]|] p3]
       end;
    simpl in H3 |- *; rewrite H3; simpl; rewrite Hp2, <- ?app_assoc;
    simpl; rewrite <- ?app_assoc; eexists; repeat f_equal.
Qed.

(** The whole run when serving ends by an interrupt, by [sys.exit],
    or never. *)
Lemma run_first_free (p : Process.t) (n : nat) (c : candidate) :
  nth_error strategies n = Some c ->
  (forall c', In c' (firstn n strategies) -> probe w c' = Some Py.OSError) ->
  probe w c = None -> bind w c = None ->
  (forall e, serve_end w c = Some e -> Py.is_Exception e = false) ->
  exists es after,
    run w p
    = (match serve_end w c with
       | None => Running
       | Some (Py.SystemExit code) => Exit code
       | Some _ => Exit 1
       end,
       trace p ++ [Print Banner; Print Rule]
       ++ flat_map skip_events (firstn n strategies)
       ++ bound_events c ++ es ++ after)
    /\ quiet es
    /\ roots es = repeat (root_for (dist_exists p) (client_exists p))
                         (List.length (arrivals w c))
    /\ after = match serve_end w c with
               | None => []
               | Some Py.KeyboardInterrupt =>
                   [Print Stopping; Close c; Print AllFailed]
               | Some _ => [Close c]
               end.
Proof.
  intros Hn Hbusy Hprobe Hbind Hend.
  destruct (split_strategies n c Hn) as [post Hsplit].
  rewrite run_unfold, start_server_unfold.
  set (p0 := record (Print Rule) (record (Print Banner) p)).
  destruct (for_loop_skips (firstn n strategies) (c :: post) p0 Hbusy)
    as (p1 & E1 & Ht1 & Hd1 & Hc1).
  rewrite <- Hsplit in E1. rewrite E1.
  simpl Py.for_loop. unfold Py.bind at 1.
  destruct (attempt_serves c p1 Hprobe Hbind)
    as (p2 & es & E2 & Ht2 & Hq & Hr).
  rewrite E2.
  assert (Hp2 : trace p2
                = trace p ++ [Print Banner; Print Rule]
                  ++ flat_map skip_events (firstn n strategies)
                  ++ bound_events c ++ es).
  { rewrite Ht2, Ht1. unfold p0. simpl. now rewrite <- !app_assoc. }
  rewrite Hd1, Hc1 in Hr. change (dist_exists p0) with (dist_exists p) in Hr.
  change (client_exists p0) with (client_exists p) in Hr.
  exists es. unfold after_serving.
  destruct (serve_end w c) as [e|] eqn:Hse.
  - specialize (Hend e eq_refl).
    destruct e; try discriminate; simpl; eexists;
      (split; [|split; [exact Hq|split; [exact Hr|reflexivity]]]);
      rewrite Hp2, <- ?app_assoc; simpl; rewrite <- ?app_assoc;
      reflexivity.
  - simpl. exists []. rewrite app_nil_r, Hp2. auto.
Qed.

End Loop.

Lemma readers_of_bound (c : candidate) :
  tried (bound_events c) = [c]
  /\ listened (bound_events c) = [c; c]
  /\ served (bound_events c) = [c]
  /\ roots (bound_events c) = [].
Proof. now repeat split. Qed.

Lemma firstn_S_nth {A : Type} (l : list A) (n : nat) (a : A) :
  nth_error l n = Some a -> firstn (S n) l = firstn n l ++ [a].
Proof.
  revert n. induction l as [|x l IH]; intros [|n] H; try discriminate.
  - now inversion H.
  - simpl in H. change (x :: firstn (S n) l = x :: firstn n l ++ [a]).
    now rewrite (IH n H).
Qed.

(** C4. The loop goes through the eight candidates in their fixed
    order. When the first n are taken and the next one, c, is free, the
    run starts by announcing and passing over the first n, then binds
    c and serves from it; and as long as serving is not ended by a
    crash of [serve_forever], the candidates tried in the whole run are
    the first n + 1, every socket is opened on c, and c alone is
    served. *)
Theorem first_available_is_served
        (w : world) (dist client temp : bool) (index : option page)
        (n : nat) (c : candidate) :
  nth_error strategies n = Some c ->
  (forall c', In c' (firstn n strategies) -> probe w c' = Some Py.OSError) ->
  probe w c = None ->
  bind w c = None ->
  strategies = [ (3001, "127.0.0.1"); (3001, "localhost"); (3001, "0.0.0.0");
                 (8080, "127.0.0.1"); (8080, "localhost"); (8080, "0.0.0.0");
                 (3000, "127.0.0.1"); (5000, "127.0.0.1") ]
  /\ (exists rest,
        snd (run w (Process.start dist client temp index))
        = [Print Banner; Print Rule]
          ++ flat_map skip_events (firstn n strategies)
          ++ bound_events c ++ rest)
  /\ ((forall e, serve_end w c = Some e -> Py.is_Exception e = false) ->
      tried (snd (run w (Process.start dist client temp index)))
      = firstn (S n) strategies
      /\ listened (snd (run w (Process.start dist client temp index)))
         = [c; c]
      /\ served (snd (run w (Process.start dist client temp index)))
         = [c]).
Proof.
  intros Hn Hbusy Hprobe Hbind. split; [reflexivity|]. split.
  - exact (run_reaches_serving w (Process.start dist client temp index)
             n c Hn Hbusy Hprobe Hbind).
  - intros Hend.
    destruct (run_first_free w (Process.start dist client temp index)
                n c Hn Hbusy Hprobe Hbind Hend)
      as (es & after & E & (Hq1 & Hq2 & Hq3) & _ & Hafter).
    rewrite E. cbn [snd].
    destruct (tried_skips (firstn n strategies)) as (S1 & S2 & S3 & _).
    assert (Ha : tried after = [] /\ listened after = []
                 /\ served after = []).
    { subst after. destruct (serve_end w c) as [[]|]; now repeat split. }
    destruct Ha as (A1 & A2 & A3).
    rewrite (firstn_S_nth strategies n c Hn).
    unfold tried, listened, served in *.
    rewrite !flat_map_app, S1, S2, S3, Hq1, Hq2, Hq3, A1, A2, A3.
    simpl. rewrite ?app_nil_r. now repeat split.
Qed.

Lemma first_available_is_served_witness :
  tried (snd (run (Sample.free_after 3 [] None) Sample.bare))
  = [ (3001, "127.0.0.1"); (3001, "localhost"); (3001, "0.0.0.0");
      (8080, "127.0.0.1") ]
  /\ listened (snd (run (Sample.free_after 3 [] None) Sample.bare))
     = [ (8080, "127.0.0.1"); (8080, "127.0.0.1") ]
  /\ served (snd (run (Sample.free_after 3 [] None) Sample.bare))
     = [ (8080, "127.0.0.1") ].
Proof.
  apply (first_available_is_served (Sample.free_after 3 [] None)
           false false false None 3 (8080, "127.0.0.1")).
  - reflexivity.
  - intros c' Hin. simpl in Hin.
    destruct Hin as [<- | [<- | [<- | []]]]; reflexivity.
  - reflexivity.
  - reflexivity.
  - intros e He. discriminate He.
Defined.

(** C5. When the probe fails on all eight candidates, the script
    announces and passes over each in order, prints the failure message
    and exits with status 1. *)
Theorem all_busy_exits_1
        (w : world) (dist client temp : bool) (index : option page) :
  (forall c, In c strategies -> probe w c = Some Py.OSError) ->
  run w (Process.start dist client temp index)
  = (Exit 1,
     [Print Banner; Print Rule]
     ++ flat_map skip_events strategies
     ++ [Print AllFailed]).
Proof.
  intros Hbusy. rewrite run_unfold, start_server_unfold.
  destruct (for_loop_skips w strategies []
              (record (Print Rule)
                 (record (Print Banner)
                    (Process.start dist client temp index))) Hbusy)
    as (p' & E & Ht & _).
  rewrite app_nil_r in E. rewrite E. simpl. rewrite Ht. reflexivity.
Qed.

Lemma all_busy_exits_1_witness :
  run Sample.all_busy Sample.bare
  = (Exit 1,
     [Print Banner; Print Rule]
     ++ flat_map skip_events strategies
     ++ [Print AllFailed]).
Proof.
  apply (all_busy_exits_1 Sample.all_busy false false false None).
  intros c _. reflexivity.
Defined.

(** An interrupt that arrives while a candidate is being probed leaves
    through the [__main__] block and exits with status 0. *)
Lemma interrupt_before_serving_exits_0 :
  run {| probe := fun _ => Some Py.KeyboardInterrupt;
         bind := fun _ => None;
         arrivals := fun _ => [];
         serve_end := fun _ => None |} Sample.bare
  = (Exit 0,
     [Print Banner; Print Rule; Print (Trying (3001, "127.0.0.1"));
      Print Goodbye]).
Proof. reflexivity. Qed.

(** The run in which the first candidate is free and the operator
    interrupts the server before any request arrives. *)
Lemma interrupted_run :
  run (Sample.free_after 0 [] (Some Py.KeyboardInterrupt)) Sample.bare
  = (Exit 1,
     [Print Banner; Print Rule]
     ++ bound_events (3001, "127.0.0.1")
     ++ [Print Stopping; Close (3001, "127.0.0.1"); Print AllFailed]).
Proof. reflexivity. Qed.

(** C1. The code does not do what the claim says: whenever a candidate
    is being served and the operator interrupts [serve_forever], the
    script prints the shutdown notice, leaves the loop, prints that all
    binding strategies failed and exits with status 1, not 0. *)
Theorem interrupt_while_serving_exits_1
        (w : world) (p : Process.t) (n : nat) (c : candidate) :
  nth_error strategies n = Some c ->
  (forall c', In c' (firstn n strategies) -> probe w c' = Some Py.OSError) ->
  probe w c = None ->
  bind w c = None ->
  serve_end w c = Some Py.KeyboardInterrupt ->
  fst (run w p) = Exit 1
  /\ exists before,
       snd (run w p)
       = before ++ [Print Stopping; Close c; Print AllFailed].
Proof.
  intros Hn Hbusy Hprobe Hbind Hend.
  destruct (run_first_free w p n c Hn Hbusy Hprobe Hbind)
    as (es & after & E & _ & _ & Hafter).
  { intros e He. rewrite Hend in He. now inversion He. }
  rewrite E, Hend in *. subst after. split; [reflexivity|].
  cbn [snd]. eexists. rewrite !app_assoc. reflexivity.
Qed.

Lemma interrupt_while_serving_exits_1_witness :
  fst (run (Sample.free_after 0 [] (Some Py.KeyboardInterrupt)) Sample.bare)
  = Exit 1
  /\ exists before,
       snd (run (Sample.free_after 0 [] (Some Py.KeyboardInterrupt))
                Sample.bare)
       = before ++ [Print Stopping; Close (3001, "127.0.0.1");
                    Print AllFailed].
Proof.
  apply (interrupt_while_serving_exits_1
           (Sample.free_after 0 [] (Some Py.KeyboardInterrupt))
           Sample.bare 0 (3001, "127.0.0.1")).
  - reflexivity.
  - intros c' Hin. destruct Hin.
  - reflexivity.
  - reflexivity.
  - reflexivity.
Defined.

(** C2, as the claim states it, fails: a run that serves two requests
    resolves the content root twice, and a run that serves none never
    resolves it. *)
Lemma root_resolution_counterexample :
  roots (snd (run (Sample.free_after 0
                     [ Sample.request Connection.GET "/";
                       Sample.request Connection.GET "/api/health" ]
                     (Some Py.KeyboardInterrupt))
                  Sample.bare))
  = [TempPublic; TempPublic]
  /\ roots (snd (run (Sample.free_after 0 [] (Some Py.KeyboardInterrupt))
                     Sample.bare))
     = [].
Proof. split; reflexivity. Qed.

(** C2, amended. The content root is resolved by the constructor of the
    request handler, once for every connection the server accepts and
    not before: constructing a handler moves the process into the
    directory the priority order (build output, client assets, temporary
    directory) selects in the file system of that moment, and in a run
    that serves its first free candidate the directories the process
    moves into are one per connection. *)
Theorem root_resolved_per_connection
        (w : world) (dist client temp : bool) (index : option page)
        (n : nat) (c : candidate) :
  nth_error strategies n = Some c ->
  (forall c', In c' (firstn n strategies) -> probe w c' = Some Py.OSError) ->
  probe w c = None ->
  bind w c = None ->
  (forall e, serve_end w c = Some e -> Py.is_Exception e = false) ->
  (forall (conn : Connection.t) (p : Process.t),
     cwd (snd (AlfalyzerHandler.__init__ conn p))
     = if dist_exists p then DistPublic
       else if client_exists p then ClientPublic
       else TempPublic)
  /\ roots (snd (run w (Process.start dist client temp index)))
     = repeat (if dist then DistPublic
               else if client then ClientPublic
               else TempPublic)
              (List.length (arrivals w c)).
Proof.
  intros Hn Hbusy Hprobe Hbind Hend. split.
  - intros conn p.
    destruct (init_outcome conn p) as (r & p' & es & E & _ & _ & _ & _ & _ & _ & H).
    rewrite E. exact H.
  - destruct (run_first_free w (Process.start dist client temp index)
                n c Hn Hbusy Hprobe Hbind Hend)
      as (es & after & E & _ & Hr & Hafter).
    rewrite E. cbn [snd].
    destruct (tried_skips (firstn n strategies)) as (_ & _ & _ & S4).
    assert (Ha : roots after = []).
    { subst after. now destruct (serve_end w c) as [[]|]. }
    rewrite !roots_app, S4, Hr, Ha. simpl. now rewrite app_nil_r.
Qed.

Lemma root_resolved_per_connection_witness :
  roots (snd (run (Sample.free_after 1
                     [ Sample.request Connection.GET "/";
                       Sample.request Connection.OPTIONS "/api/stocks" ]
                     (Some Py.KeyboardInterrupt))
                  (Process.start false true false None)))
  = [ClientPublic; ClientPublic].
Proof.
  apply (root_resolved_per_connection
           (Sample.free_after 1
              [ Sample.request Connection.GET "/";
                Sample.request Connection.OPTIONS "/api/stocks" ]
              (Some Py.KeyboardInterrupt))
           false true false None 1 (3001, "localhost")).
  - reflexivity.
  - intros c' Hin. simpl in Hin. destruct Hin as [<- | []]. reflexivity.
  - reflexivity.
  - reflexivity.
  - intros e He. inversion He. reflexivity.
Defined.

End ServerFacts.

(** ** [urlparse] on targets with parameters, and on bad hosts *)

Module UrllibMore.

Import Str StrFacts Urllib.
Local Arguments Ascii.eqb : simpl never.

Lemma contains_remove (f : ascii -> bool) (c : ascii) (a : string) :
  f c = false -> contains c (remove f a) = contains c a.
Proof.
  intros Hc. induction a as [|d a IH]; simpl; [reflexivity|].
  destruct (f d) eqn:Hd; simpl; rewrite IH; [|reflexivity].
  destruct (Ascii.eqb c d) eqn:E; [|reflexivity].
  apply Ascii.eqb_eq in E. subst d. congruence.
Qed.

Lemma rpartition_app_absent (c : ascii) (a y : string) :
  contains c y = false ->
  rpartition c (a ++ y)
  = match rpartition c a with
    | (Some h, t) => (Some h, t ++ y)
    | (None, t) => (None, t ++ y)
    end.
Proof.
  intros Hy. induction a as [|d a IH]; simpl.
  - clear - Hy. induction y as [|e y IH]; simpl; [reflexivity|].
    simpl in Hy. apply orb_false_elim in Hy. destruct Hy as [H1 H2].
    rewrite (IH H2), H1. reflexivity.
  - rewrite IH. destruct (rpartition c a) as [[h|] t]; [reflexivity|].
    now destruct (Ascii.eqb c d).
Qed.

Lemma break_absent (a : string) :
  contains "/" a = false -> contains "?" a = false ->
  contains "#" a = false ->
  break netloc_delim a = (a, EmptyString).
Proof.
  induction a as [|d a IH]; simpl; intros H1 H2 H3; [reflexivity|].
  apply orb_false_elim in H1. apply orb_false_elim in H2.
  apply orb_false_elim in H3.
  destruct H1 as [A1 B1], H2 as [A2 B2], H3 as [A3 B3].
  unfold netloc_delim.
  rewrite (Ascii.eqb_sym d "/"), (Ascii.eqb_sym d "?"), (Ascii.eqb_sym d "#").
  rewrite A1, A2, A3. cbn [orb].
  fold netloc_delim. now rewrite (IH B1 B2 B3).
Qed.

(** The part of a URL before its fragment, and before its query. *)
Lemma cut_fst (c : ascii) (url : string) :
  fst (match partition c url with
       | (u, Some f) => (u, f)
       | (_, None) => (url, EmptyString)
       end)
  = fst (partition c url).
Proof.
  destruct (contains c url) eqn:Hc.
  - destruct (partition_present c url Hc) as (b & r & E). now rewrite E.
  - now rewrite (partition_absent c url Hc).
Qed.

Lemma split_scheme_slash (s : string) :
  split_scheme (String "/" s) = (EmptyString, String "/" s).
Proof.
  unfold split_scheme.
  change (partition ":" (String "/" s))
    with (let (b, a) := partition ":" s in (String "/" b, a)).
  destruct (partition ":" s) as [b [a|]]; reflexivity.
Qed.

Section Targets.

Variables br nr : string -> bool.

(** The path of a target [/api/seg] followed by parameters, a query and
    a fragment is [/api/seg]. *)
Lemma urlparse_api_segment (seg tail : string) :
  contains ";" seg = false -> contains "/" seg = false ->
  contains "?" seg = false -> contains "#" seg = false ->
  remove unsafe_url_byte seg = seg ->
  contains "/" tail = false ->
  exists pr,
    urlparse br nr ("/api/" ++ seg ++ String ";" tail) = Py.Ret pr
    /\ path pr = "/api/" ++ seg.
Proof.
  intros Hsemi Hslash Hq Hf Hsafe Htail. unfold urlparse.
  change (lstrip c0_control_or_space ("/api/" ++ seg ++ String ";" tail))
    with ("/api/" ++ seg ++ String ";" tail).
  change ("/api/" ++ seg ++ String ";" tail)
    with (String "/" ("api/" ++ seg ++ String ";" tail)).
  change (remove unsafe_url_byte (String "/" ("api/" ++ seg ++ String ";" tail)))
    with (String "/" ("api/" ++ remove unsafe_url_byte (seg ++ String ";" tail))).
  rewrite remove_app, Hsafe.
  change (remove unsafe_url_byte (String ";" tail))
    with (String ";" (remove unsafe_url_byte tail)).
  set (t1 := remove unsafe_url_byte tail).
  assert (Ht1 : contains "/" t1 = false) by now apply remove_contains.
  rewrite split_scheme_slash.
  change (split_netloc (String "/" ("api/" ++ seg ++ String ";" t1)))
    with (EmptyString, String "/" ("api/" ++ seg ++ String ";" t1)).
  change (netloc_error br nr EmptyString) with false. cbv iota.
  set (url := String "/" ("api/" ++ seg ++ String ";" t1)).
  pose proof (cut_fst "#" url) as Hfr.
  destruct (match partition "#" url with
            | (u, Some f) => (u, f)
            | (_, None) => (url, EmptyString)
            end) as [u3 fr]. cbn [fst] in Hfr.
  pose proof (cut_fst "?" u3) as Hqu.
  destruct (match partition "?" u3 with
            | (u, Some q) => (u, q)
            | (_, None) => (u3, EmptyString)
            end) as [u4 qu]. cbn [fst] in Hqu.
  (* what is left of the tail *)
  assert (Hu4 : exists t2, u4 = ("/api/" ++ seg) ++ String ";" t2
                           /\ contains "/" t2 = false).
  { subst u4 u3. unfold url.
    change (String "/" ("api/" ++ seg ++ String ";" t1))
      with (("/api/" ++ seg) ++ String ";" t1).
    assert (Hp : forall c, contains c ("/api/" ++ seg) = contains c "/api/" || contains c seg)
      by (intros c; apply (contains_app c "/api/" seg)).
    rewrite (partition_app_absent "#" ("/api/" ++ seg) (String ";" t1))
      by (rewrite Hp, Hf; reflexivity).
    change (partition "#" (String ";" t1))
      with (let (b, a) := partition "#" t1 in (String ";" b, a)).
    destruct (partition "#" t1) as [b1 a1] eqn:E1. cbn [fst snd].
    rewrite (partition_app_absent "?" ("/api/" ++ seg) (String ";" b1))
      by (rewrite Hp, Hq; reflexivity).
    change (partition "?" (String ";" b1))
      with (let (b, a) := partition "?" b1 in (String ";" b, a)).
    destruct (partition "?" b1) as [b2 a2] eqn:E2. cbn [fst snd].
    exists b2. split; [reflexivity|].
    destruct (partition_contains "#" "/" t1 b1 a1 E1 Ht1) as [Hb1 _].
    now destruct (partition_contains "?" "/" b1 b2 a2 E2 Hb1). }
  destruct Hu4 as (t2 & -> & Ht2).
  change (existsb (String.eqb EmptyString) uses_params) with true.
  rewrite contains_app. change (contains ";" (String ";" t2)) with true.
  rewrite orb_true_r. cbv iota beta. simpl andb.
  unfold _splitparams.
  change (("/api/" ++ seg) ++ String ";" t2)
    with ("/api/" ++ (seg ++ String ";" t2)).
  rewrite (rpartition_app_absent "/" "/api/" (seg ++ String ";" t2))
    by (rewrite contains_app, Hslash; simpl; rewrite Ht2; reflexivity).
  change (rpartition "/" "/api/") with (Some "/api/", EmptyString).
  cbv iota beta. change (EmptyString ++ (seg ++ String ";" t2))
    with (seg ++ String ";" t2).
  rewrite (partition_app_absent ";" seg (String ";" t2) Hsemi).
  change (partition ";" (String ";" t2)) with (EmptyString, Some t2).
  simpl fst. simpl snd. rewrite app_empty_r.
  eexists. split; reflexivity.
Qed.

Lemma urlparse_api_plain (seg : string) :
  contains ";" seg = false ->
  contains "?" seg = false -> contains "#" seg = false ->
  remove unsafe_url_byte seg = seg ->
  exists pr,
    urlparse br nr ("/api/" ++ seg) = Py.Ret pr
    /\ path pr = "/api/" ++ seg.
Proof.
  intros Hsemi Hq Hf Hsafe. unfold urlparse.
  change (lstrip c0_control_or_space ("/api/" ++ seg)) with ("/api/" ++ seg).
  change (remove unsafe_url_byte ("/api/" ++ seg))
    with ("/api/" ++ remove unsafe_url_byte seg).
  rewrite Hsafe.
  change ("/api/" ++ seg) with (String "/" ("api/" ++ seg)).
  rewrite split_scheme_slash. cbv iota beta.
  change (split_netloc (String "/" ("api/" ++ seg)))
    with (EmptyString, String "/" ("api/" ++ seg)).
  cbv iota beta.
  change (netloc_error br nr EmptyString) with false. cbv iota.
  change (String "/" ("api/" ++ seg)) with ("/api/" ++ seg).
  assert (Hp : forall c, contains c ("/api/" ++ seg)
                         = contains c "/api/" || contains c seg)
    by (intros c; apply (contains_app c "/api/" seg)).
  rewrite (partition_absent "#" ("/api/" ++ seg))
    by (rewrite Hp, Hf; reflexivity).
  rewrite (partition_absent "?" ("/api/" ++ seg))
    by (rewrite Hp, Hq; reflexivity).
  rewrite Hp, Hsemi. change (contains ";" "/api/") with false.
  rewrite andb_false_r. eexists. split; reflexivity.
Qed.

(** An absolute target whose host holds an opening bracket and no
    closing one is rejected. *)
Lemma urlparse_unbalanced_bracket (host rest : string) :
  contains "[" host = true -> contains "]" host = false ->
  contains "/" host = false -> contains "?" host = false ->
  contains "#" host = false ->
  urlparse br nr ("http://" ++ host ++ String "/" rest)
  = Py.Raise Py.ValueError.
Proof.
  intros Hopen Hclose H1 H2 H3. unfold urlparse.
  change (lstrip c0_control_or_space ("http://" ++ host ++ String "/" rest))
    with ("http://" ++ host ++ String "/" rest).
  change (remove unsafe_url_byte ("http://" ++ host ++ String "/" rest))
    with ("http://" ++ remove unsafe_url_byte (host ++ String "/" rest)).
  rewrite remove_app.
  change (remove unsafe_url_byte (String "/" rest))
    with (String "/" (remove unsafe_url_byte rest)).
  set (h := remove unsafe_url_byte host).
  set (r := remove unsafe_url_byte rest).
  change (split_scheme ("http://" ++ h ++ String "/" r))
    with ("http", "//" ++ h ++ String "/" r).
  cbv iota beta.
  change (split_netloc ("//" ++ h ++ String "/" r))
    with (break netloc_delim (h ++ String "/" r)).
  rewrite (break_app netloc_delim h r "/" eq_refl).
  rewrite break_absent by (now apply remove_contains).
  cbn [fst snd]. cbv iota beta. unfold netloc_error.
  unfold h. rewrite (contains_remove unsafe_url_byte "[" host eq_refl), Hopen.
  rewrite (remove_contains unsafe_url_byte "]" host Hclose). reflexivity.
Qed.

End Targets.

End UrllibMore.

(** ** More on routing and replies *)

Module RoutingFacts.

Import Handler AlfalyzerHandler Json Expected.

(** X1. A GET for the root, with or without a query string, and a GET
    with an empty target are served as /index.html: [self.path] is
    replaced, the query string is gone, and the handler is handed to the
    static file server with nothing logged or written before. *)
Theorem root_request_serves_index (rt : runtime) (self : Handler.t) :
  (forall q : string,
     do_GET rt (set_path ("/?" ++ q) self)
     = (Py.Ret tt,
        SimpleHTTPRequestHandler_do_GET rt (set_path "/index.html" self)))
  /\ do_GET rt (set_path "/" self)
     = (Py.Ret tt,
        SimpleHTTPRequestHandler_do_GET rt (set_path "/index.html" self))
  /\ do_GET rt (set_path "" self)
     = (Py.Ret tt,
        SimpleHTTPRequestHandler_do_GET rt (set_path "/index.html" self)).
Proof.
  split; [|split; reflexivity].
  intros q.
  pose proof (HandlerFacts.urlparse_with_query rt "/" q eq_refl eq_refl) as H.
  change (urlparse rt "/")
    with (Py.Ret {| Urllib.scheme := ""; Urllib.netloc := "";
                    Urllib.path := "/"; Urllib.params := "";
                    Urllib.query := ""; Urllib.fragment := "" |}
          : Py.res Urllib.ParseResult) in H.
  destruct H as (pr' & Hp & Hpath). simpl in Hpath.
  unfold do_GET, Py.bind, Py.get, Py.lift.
  change (path (set_path ("/?" ++ q) self)) with ("/" ++ String "?" q).
  rewrite Hp, Hpath. reflexivity.
Qed.

(** X2. Whatever the path under /api/, known or not, the reply to an
    HTTP/1.x request goes out under status 200 with Content-Type
    application/json and the three CORS headers, followed by exactly one
    JSON body: a client never sees a 404 status line from the API. *)
Theorem api_reply_always_200 (rt : runtime) (p : string) (d : dir)
        (pr : Urllib.ParseResult) :
  urlparse rt p = Py.Ret pr ->
  Str.startswith "/api/" (Urllib.path pr) = true ->
  exists wire body,
    GET rt p d = (Py.Ret tt, wire)
    /\ status wire = Some 200
    /\ header "Content-Type" wire = Some "application/json"
    /\ header "Access-Control-Allow-Origin" wire = Some "*"
    /\ header "Access-Control-Allow-Methods" wire = Some "GET, POST, OPTIONS"
    /\ header "Access-Control-Allow-Headers" wire
       = Some "Content-Type, Authorization"
    /\ bodies wire = [body]
    /\ List.length wire = 2%nat.
Proof.
  intros Hp Hs.
  destruct (String.eqb (Urllib.path pr) "/api/health") eqn:E1.
  - apply String.eqb_eq in E1.
    rewrite (HandlerFacts.GET_health rt p d pr Hp E1).
    do 2 eexists. repeat split.
  - destruct (String.eqb (Urllib.path pr) "/api/stocks") eqn:E2.
    + apply String.eqb_eq in E2.
      rewrite (HandlerFacts.GET_stocks rt p d pr Hp E2).
      do 2 eexists. repeat split.
    + apply String.eqb_neq in E1. apply String.eqb_neq in E2.
      unfold GET. rewrite (HandlerFacts.GET_unknown rt p d pr Hp Hs E1 E2).
      do 2 eexists. repeat split.
Qed.

Lemma api_reply_always_200_witness :
  exists wire body,
    GET Sample.rt "/api/orders/17" DistPublic = (Py.Ret tt, wire)
    /\ status wire = Some 200
    /\ header "Content-Type" wire = Some "application/json"
    /\ header "Access-Control-Allow-Origin" wire = Some "*"
    /\ header "Access-Control-Allow-Methods" wire = Some "GET, POST, OPTIONS"
    /\ header "Access-Control-Allow-Headers" wire
       = Some "Content-Type, Authorization"
    /\ bodies wire = [body]
    /\ List.length wire = 2%nat.
Proof.
  apply (api_reply_always_200 Sample.rt "/api/orders/17" DistPublic
           {| Urllib.scheme := ""; Urllib.netloc := "";
              Urllib.path := "/api/orders/17"; Urllib.params := "";
              Urllib.query := ""; Urllib.fragment := "" |});
    reflexivity.
Defined.

(** X3. Under a request line without a version (HTTP/0.9) the API
    handler writes the same JSON body as under HTTP/1.x and nothing
    else, no status line and no header, and leaves the header buffer
    empty, while the status codes are logged all the same. *)
Theorem http_0_9_replies_are_bare (rt : runtime) (p : string) (d : dir)
        (pr : Urllib.ParseResult) :
  urlparse rt p = Py.Ret pr ->
  Str.startswith "/api/" (Urllib.path pr) = true ->
  wfile (snd (do_GET rt (fresh HTTP_0_9 p d)))
  = List.map Body (bodies (snd (GET rt p d)))
  /\ List.length (bodies (snd (GET rt p d))) = 1%nat
  /\ headers_buffer (snd (do_GET rt (fresh HTTP_0_9 p d))) = []
  /\ log (snd (do_GET rt (fresh HTTP_0_9 p d)))
     = log (snd (do_GET rt (fresh HTTP_1 p d))).
Proof.
  intros Hp Hs. unfold GET.
  rewrite (HandlerFacts.do_GET_api rt (fresh HTTP_0_9 p d) pr Hp Hs).
  rewrite (HandlerFacts.do_GET_api rt (fresh HTTP_1 p d) pr Hp Hs).
  unfold handle_api_request.
  destruct (String.eqb (Urllib.path pr) "/api/health");
    [now repeat split|].
  destruct (String.eqb (Urllib.path pr) "/api/stocks"); now repeat split.
Qed.

Lemma http_0_9_replies_are_bare_witness :
  wfile (snd (do_GET Sample.rt (fresh HTTP_0_9 "/api/stocks" TempPublic)))
  = [Body (stocks_body Sample.rt)]
  /\ log (snd (do_GET Sample.rt (fresh HTTP_0_9 "/api/stocks" TempPublic)))
     = [200].
Proof.
  destruct (http_0_9_replies_are_bare Sample.rt "/api/stocks" TempPublic
              {| Urllib.scheme := ""; Urllib.netloc := "";
                 Urllib.path := "/api/stocks"; Urllib.params := "";
                 Urllib.query := ""; Urllib.fragment := "" |}
              eq_refl eq_refl) as (H1 & _ & _ & H4).
  rewrite H1, H4. split; reflexivity.
Defined.

(** X4. Parameters after the last path segment are cut off by
    [urlparse] before routing: a target /api/seg;params, with or without
    a query and a fragment after the parameters, is answered exactly like
    /api/seg; in particular /api/health;x is the health reply. *)
Theorem path_parameters_ignored (rt : runtime) (d : dir) (seg tail : string) :
  Str.contains ";" seg = false -> Str.contains "/" seg = false ->
  Str.contains "?" seg = false -> Str.contains "#" seg = false ->
  Str.remove Urllib.unsafe_url_byte seg = seg ->
  Str.contains "/" tail = false ->
  GET rt ("/api/" ++ seg ++ String ";" tail) d = GET rt ("/api/" ++ seg) d.
Proof.
  intros Hsemi Hslash Hq Hf Hsafe Htail.
  destruct (UrllibMore.urlparse_api_segment (bracketed_netloc_rejected rt)
              (nfkc_netloc_rejected rt) seg tail Hsemi Hslash Hq Hf Hsafe
              Htail) as (pr1 & Hp1 & Hpath1).
  destruct (UrllibMore.urlparse_api_plain (bracketed_netloc_rejected rt)
              (nfkc_netloc_rejected rt) seg Hsemi Hq Hf Hsafe)
    as (pr2 & Hp2 & Hpath2).
  apply (HandlerFacts.GET_depends_on_path rt _ _ d pr1 pr2 Hp1 Hp2).
  - now rewrite Hpath1, Hpath2.
  - rewrite Hpath1. reflexivity.
Qed.

Lemma path_parameters_ignored_witness :
  GET Sample.rt "/api/health;jsessionid=1?verbose#top" DistPublic
  = GET Sample.rt "/api/health" DistPublic.
Proof.
  apply (path_parameters_ignored Sample.rt DistPublic "health"
           "jsessionid=1?verbose#top"); reflexivity.
Defined.

(** X5. A request whose absolute target names a host with an opening
    bracket and no closing one makes [urlparse] raise [ValueError]:
    [do_GET] raises before anything is logged, buffered or written, and
    the handler is left as it was. *)
Theorem unbalanced_bracket_raises
        (rt : runtime) (v : version) (d : dir) (host rest : string) :
  Str.contains "[" host = true -> Str.contains "]" host = false ->
  Str.contains "/" host = false -> Str.contains "?" host = false ->
  Str.contains "#" host = false ->
  do_GET rt (fresh v ("http://" ++ host ++ String "/" rest) d)
  = (Py.Raise Py.ValueError,
     fresh v ("http://" ++ host ++ String "/" rest) d).
Proof.
  intros Hopen Hclose H1 H2 H3.
  apply HandlerFacts.do_GET_raises.
  exact (UrllibMore.urlparse_unbalanced_bracket
           (bracketed_netloc_rejected rt) (nfkc_netloc_rejected rt)
           host rest Hopen Hclose H1 H2 H3).
Qed.

Lemma unbalanced_bracket_raises_witness :
  do_GET Sample.rt (fresh HTTP_1 "http://[::1/api/health" DistPublic)
  = (Py.Raise Py.ValueError,
     fresh HTTP_1 "http://[::1/api/health" DistPublic).
Proof.
  apply (unbalanced_bracket_raises Sample.rt HTTP_1 DistPublic
           "[::1" "api/health"); reflexivity.
Defined.

End RoutingFacts.

(** ** The handler's constructor and the connections of a server *)

Module RootFacts.

Import Handler Process Server Expected Observe.
Local Open Scope list_scope.

(** What constructing a handler does to the process. *)
Lemma init_effect (conn : Connection.t) (p : Process.t) :
  exists r p' h es,
    AlfalyzerHandler.__init__ conn p = (r, p')
    /\ (r = Py.Ret tt \/ r = Py.Raise Py.ValueError)
    /\ dist_exists p' = dist_exists p
    /\ client_exists p' = client_exists p
    /\ temp_exists p'
       = (temp_exists p || negb (dist_exists p || client_exists p))
    /\ temp_index p'
       = (if dist_exists p || client_exists p then temp_index p
          else Some {| page_python_version :=
                         sys_version (Connection.runtime conn);
                       page_directory := cwd p |})
    /\ cwd p' = root_for (dist_exists p) (client_exists p)
    /\ trace p' = trace p ++ es ++ [Handled h]
    /\ forallb connection_event es = true
    /\ handled es = []
    /\ handle_errors es = []
    /\ written es
       = (if dist_exists p || client_exists p then []
          else if temp_exists p then [TempPublic]
          else [TempPublic; TempPublic]).
Proof.
  unfold AlfalyzerHandler.__init__, AlfalyzerHandler.create_basic_files,
    Py.bind, Py.get, chdir, print, emit, mkdir_temp, write_index, Py.modify.
  destruct (dist_exists p) eqn:Hd; [|destruct (client_exists p) eqn:Hc].
  - match goal with
    | |- context [AlfalyzerHandler.super_init ?k ?s] =>
        destruct (ServerFacts.super_init_outcome k s) as [h [H | H]];
        rewrite H
    end;
    (eexists; eexists; exists h,
       [Chdir DistPublic; Print (ServingFrom DistPublic)];
     split; [reflexivity|]; split; [auto|];
     cbn [record dist_exists client_exists temp_exists temp_index cwd trace];
     rewrite <- ?app_assoc, ?orb_false_r; now repeat split).
  - match goal with
    | |- context [AlfalyzerHandler.super_init ?k ?s] =>
        destruct (ServerFacts.super_init_outcome k s) as [h [H | H]];
        rewrite H
    end;
    (eexists; eexists; exists h,
       [Chdir ClientPublic; Print (ServingFrom ClientPublic)];
     split; [reflexivity|]; split; [auto|];
     cbn [record dist_exists client_exists temp_exists temp_index cwd trace];
     rewrite <- ?app_assoc, ?orb_false_r; now repeat split).
  - match goal with
    | |- context [AlfalyzerHandler.super_init ?k ?s] =>
        destruct (ServerFacts.super_init_outcome k s) as [h [H | H]];
        rewrite H
    end;
    (eexists; eexists;
     exists h,
       ((if temp_exists p then [] else [Mkdir TempPublic])
        ++ [WriteIndex TempPublic
              {| page_python_version := sys_version (Connection.runtime conn);
                 page_directory := cwd p |};
            Chdir TempPublic; Print (ServingFromTemporary TempPublic)]);
     split; [reflexivity|]; split; [auto|];
     cbn [record dist_exists client_exists temp_exists temp_index cwd trace];
     rewrite <- ?app_assoc, ?orb_true_r;
     destruct (temp_exists p); now repeat split).
Qed.

Lemma written_app (a b : list event) : written (a ++ b) = written a ++ written b.
Proof. apply flat_map_app. Qed.

Lemma handled_app (a b : list event) : handled (a ++ b) = handled a ++ handled b.
Proof. apply flat_map_app. Qed.

Lemma handle_errors_app (a b : list event) :
  handle_errors (a ++ b) = handle_errors a ++ handle_errors b.
Proof. apply flat_map_app. Qed.

(** X6. With neither a build output nor the client assets, constructing
    a handler leaves the temporary directory in place, overwrites its
    index page and moves into it. The page is written before the move,
    so it names the directory the process was in: the first page of a
    run names the launch directory, every later one the temporary
    directory itself. *)
Theorem fallback_index_page (conn1 conn2 : Connection.t) (p : Process.t) :
  dist_exists p = false ->
  client_exists p = false ->
  temp_exists (snd (AlfalyzerHandler.__init__ conn1 p)) = true
  /\ temp_index (snd (AlfalyzerHandler.__init__ conn1 p))
     = Some {| page_python_version := sys_version (Connection.runtime conn1);
               page_directory := cwd p |}
  /\ cwd (snd (AlfalyzerHandler.__init__ conn1 p)) = TempPublic
  /\ temp_index (snd (AlfalyzerHandler.__init__ conn2
                        (snd (AlfalyzerHandler.__init__ conn1 p))))
     = Some {| page_python_version := sys_version (Connection.runtime conn2);
               page_directory := TempPublic |}.
Proof.
  intros Hd Hc.
  destruct (init_effect conn1 p)
    as (r1 & p1 & h1 & es1 & E1 & _ & Hd1 & Hc1 & Ht1 & Hi1 & Hw1 & _).
  rewrite E1. cbn [snd].
  destruct (init_effect conn2 p1)
    as (r2 & p2 & h2 & es2 & E2 & _ & _ & _ & _ & Hi2 & _).
  rewrite E2. cbn [snd].
  rewrite Hd, Hc in *. rewrite Hd1, Hc1, Hw1 in Hi2.
  rewrite Ht1, Hi1, Hw1, Hi2. cbn. rewrite orb_true_r. auto.
Qed.

Lemma fallback_index_page_witness :
  temp_index (snd (AlfalyzerHandler.__init__
                     (Sample.request Connection.GET "/")
                     (snd (AlfalyzerHandler.__init__
                             (Sample.request Connection.GET "/") Sample.bare))))
  = Some {| page_python_version := "3.11.2 (main)";
            page_directory := TempPublic |}.
Proof.
  apply (fallback_index_page (Sample.request Connection.GET "/")
           (Sample.request Connection.GET "/") Sample.bare); reflexivity.
Defined.

(** X7. When the build output or the client assets exist, constructing
    a handler creates no directory and writes no file: the temporary
    directory and its index page are as they were. *)
Theorem existing_root_untouched (conn : Connection.t) (p : Process.t) :
  dist_exists p || client_exists p = true ->
  temp_exists (snd (AlfalyzerHandler.__init__ conn p)) = temp_exists p
  /\ temp_index (snd (AlfalyzerHandler.__init__ conn p)) = temp_index p
  /\ written (trace (snd (AlfalyzerHandler.__init__ conn p)))
     = written (trace p).
Proof.
  intros H.
  destruct (init_effect conn p)
    as (r & p' & h & es & E & _ & _ & _ & Ht & Hi & _ & Htr & _ & _ & _ & Hw).
  rewrite E. cbn [snd]. rewrite H in *.
  rewrite Ht, Hi, Htr, !written_app, Hw. cbn.
  rewrite orb_false_r, app_nil_r. auto.
Qed.

Lemma existing_root_untouched_witness :
  temp_exists (snd (AlfalyzerHandler.__init__
                      (Sample.request Connection.GET "/")
                      (Process.start true true false None))) = false
  /\ temp_index (snd (AlfalyzerHandler.__init__
                        (Sample.request Connection.GET "/")
                        (Process.start true true false None))) = None
  /\ written (trace (snd (AlfalyzerHandler.__init__
                            (Sample.request Connection.GET "/")
                            (Process.start true true false None))))
     = [].
Proof.
  apply (existing_root_untouched (Sample.request Connection.GET "/")
           (Process.start true true false None)).
  reflexivity.
Defined.

Lemma process_request_events (conn : Connection.t) (p : Process.t) :
  exists p' es,
    process_request conn p = (Py.Ret tt, p')
    /\ trace p' = trace p ++ es
    /\ forallb connection_event es = true
    /\ List.length (handled es) = 1%nat
    /\ Forall (fun x => x = Py.ValueError) (handle_errors es).
Proof.
  destruct (init_effect conn p)
    as (r & p' & h & es & E & [Hr | Hr] & _ & _ & _ & _ & _ & Htr & Hce
        & Hh & He & _);
    subst r; unfold process_request, Py.try_except; rewrite E.
  - exists p', (es ++ [Handled h]). cbn [Py.select].
    rewrite forallb_app, handled_app, handle_errors_app, Hce, Hh, He.
    repeat split; auto.
  - exists (record (HandleError Py.ValueError) p'),
           (es ++ [Handled h; HandleError Py.ValueError]).
    cbn. rewrite Htr, <- !app_assoc.
    rewrite forallb_app, handled_app, handle_errors_app, Hce, Hh, He.
    repeat split; auto. cbn. auto.
Qed.

Lemma for_each_events (conns : list Connection.t) (p : Process.t) :
  exists p' es,
    Py.for_each conns process_request p = (Py.Ret tt, p')
    /\ trace p' = trace p ++ es
    /\ forallb connection_event es = true
    /\ List.length (handled es) = List.length conns
    /\ Forall (fun x => x = Py.ValueError) (handle_errors es).
Proof.
  revert p. induction conns as [|conn conns IH]; intros p.
  - exists p, []. cbn. rewrite app_nil_r. repeat split; auto.
  - destruct (process_request_events conn p)
      as (p1 & es1 & E1 & Ht1 & Hc1 & Hh1 & He1).
    destruct (IH p1) as (p2 & es2 & E2 & Ht2 & Hc2 & Hh2 & He2).
    exists p2, (es1 ++ es2). cbn [Py.for_each]. unfold Py.bind.
    rewrite E1, E2, Ht2, Ht1, <- app_assoc.
    rewrite forallb_app, handled_app, handle_errors_app, Hc1, Hc2,
      length_app, Hh1, Hh2.
    repeat split; auto. apply Forall_app. auto.
Qed.


End RootFacts.

(** ** [try_port] and [find_available_port] *)

Module PortFacts.

Import Handler Process Server Expected Observe.
Local Open Scope list_scope.

Section Ports.

Variable w : world.

(** The three ways [try_port] ends. *)
Lemma try_port_outcome (port : Z) (host : string) (p : Process.t) :
  try_port w port host p
  = match probe w (port, host) with
    | None =>
        (Py.Ret true,
         record (Close (port, host)) (record (Listen (port, host)) p))
    | Some e =>
        if Py.is_OSError e then (Py.Ret false, p) else (Py.Raise e, p)
    end.
Proof.
  unfold try_port, with_TCPServer, TCPServer, Py.try_except, Py.finally,
    Py.bind, emit, Py.modify.
  destruct (probe w (port, host)) as [[]|]; reflexivity.
Qed.

Lemma first_free_port_skips (pre rest : list Z) (host : string)
      (p : Process.t) :
  (forall port, In port pre -> probe w (port, host) = Some Py.OSError) ->
  first_free_port w (pre ++ rest) host p = first_free_port w rest host p.
Proof.
  induction pre as [|port pre IH]; intros H; [reflexivity|].
  cbn [app first_free_port]. unfold Py.bind at 1.
  rewrite try_port_outcome, (H port (or_introl eq_refl)). cbn.
  apply IH. intros q Hq. apply H. now right.
Qed.

Lemma first_free_port_sound (ports : list Z) (host : string)
      (p p' : Process.t) (r : option Z) :
  first_free_port w ports host p = (Py.Ret r, p') ->
  match r with
  | Some port => In port ports /\ probe w (port, host) = None
  | None =>
      p' = p
      /\ forall port, In port ports -> probe w (port, host) = Some Py.OSError
  end.
Proof.
  revert p. induction ports as [|port ports IH]; intros p H.
  - cbn in H. inversion H; subst. split; [reflexivity|]. intros q [].
  - cbn [first_free_port] in H. unfold Py.bind at 1 in H.
    rewrite try_port_outcome in H.
    destruct (probe w (port, host)) as [e|] eqn:E.
    + destruct e; cbn in H; try discriminate.
      specialize (IH p H). destruct r as [q|].
      * destruct IH as [Hin Hq]. split; [now right | exact Hq].
      * destruct IH as [Hp Hall]. split; [exact Hp|].
        intros q [<- | Hq]; [exact E | now apply Hall].
    + cbn in H. inversion H; subst. split; [now left | exact E].
Qed.

Lemma in_ports_from (start_port : Z) (n : nat) (port : Z) :
  In port (ports_from start_port n) <->
  exists i, (i < n)%nat /\ port = start_port + Z.of_nat i.
Proof.
  unfold ports_from. rewrite in_map_iff. split.
  - intros (i & <- & Hi). apply in_seq in Hi. exists i. split; [lia | reflexivity].
  - intros (i & Hi & ->). exists i. split; [reflexivity|]. apply in_seq. lia.
Qed.

Lemma ports_from_split (start_port : Z) (k n : nat) :
  (k < n)%nat ->
  ports_from start_port n
  = ports_from start_port k
    ++ (start_port + Z.of_nat k)
       :: List.map (fun i => start_port + Z.of_nat i) (seq (S k) (n - S k)).
Proof.
  intros Hk. unfold ports_from.
  replace n with (k + S (n - S k))%nat at 1 by lia.
  rewrite seq_app, map_app. reflexivity.
Qed.

(** X9. [find_available_port] returns the first port, counting up from
    [start_port], on which [try_port] succeeds: when the k ports before
    it (k < 10) fail with [OSError] and port [start_port + k] is free,
    that port is the result, and the only socket ever opened is the
    probe on it, closed again. *)
Theorem find_available_port_first_free
        (start_port : Z) (host : string) (p : Process.t) (k : nat) :
  (k < 10)%nat ->
  (forall i, (i < k)%nat ->
             probe w (start_port + Z.of_nat i, host) = Some Py.OSError) ->
  probe w (start_port + Z.of_nat k, host) = None ->
  find_available_port w start_port host p
  = (Py.Ret (Some (start_port + Z.of_nat k)),
     record (Close (start_port + Z.of_nat k, host))
       (record (Listen (start_port + Z.of_nat k, host)) p)).
Proof.
  intros Hk Hbusy Hfree. unfold find_available_port.
  change (List.map (fun i => start_port + Z.of_nat i) (seq 0 10))
    with (ports_from start_port 10).
  rewrite (ports_from_split start_port k 10 Hk).
  rewrite first_free_port_skips.
  - cbn [first_free_port]. unfold Py.bind.
    rewrite try_port_outcome, Hfree. reflexivity.
  - intros port Hin. apply in_ports_from in Hin.
    destruct Hin as (i & Hi & ->). now apply Hbusy.
Qed.

(** X10. When [try_port] fails with [OSError] on all ten ports from
    [start_port] on, [find_available_port] returns [None] and leaves the
    process as it found it: nothing printed, no socket left open. *)
Theorem find_available_port_exhausted
        (start_port : Z) (host : string) (p : Process.t) :
  (forall i, (i < 10)%nat ->
             probe w (start_port + Z.of_nat i, host) = Some Py.OSError) ->
  find_available_port w start_port host p = (Py.Ret None, p).
Proof.
  intros Hbusy. unfold find_available_port.
  change (List.map (fun i => start_port + Z.of_nat i) (seq 0 10))
    with (ports_from start_port 10).
  rewrite <- (app_nil_r (ports_from start_port 10)).
  rewrite first_free_port_skips; [reflexivity|].
  intros port Hin. apply in_ports_from in Hin.
  destruct Hin as (i & Hi & ->). now apply Hbusy.
Qed.

(** X11. A port returned by [find_available_port] lies in the range
    [start_port <= port < start_port + 10] and passed the probe; and
    [None] is returned only when the probe raised [OSError] on every one
    of the ten ports. *)
Theorem find_available_port_sound
        (start_port : Z) (host : string) (p p' : Process.t) (r : option Z) :
  find_available_port w start_port host p = (Py.Ret r, p') ->
  match r with
  | Some port =>
      start_port <= port < start_port + 10
      /\ probe w (port, host) = None
  | None =>
      forall port, start_port <= port < start_port + 10 ->
                   probe w (port, host) = Some Py.OSError
  end.
Proof.
  intros H. unfold find_available_port in H.
  change (List.map (fun i => start_port + Z.of_nat i) (seq 0 10))
    with (ports_from start_port 10) in H.
  apply first_free_port_sound in H. destruct r as [port|].
  - destruct H as [Hin Hfree]. split; [|exact Hfree].
    apply in_ports_from in Hin. destruct Hin as (i & Hi & ->). lia.
  - destruct H as [_ Hall]. intros port Hport. apply Hall.
    apply in_ports_from. exists (Z.to_nat (port - start_port)).
    split; lia.
Qed.

End Ports.

Lemma find_available_port_first_free_witness :
  find_available_port (Sample.free_after 3 [] None) 3001 "0.0.0.0" Sample.bare
  = (Py.Ret (Some 3002),
     record (Close (3002, "0.0.0.0"))
       (record (Listen (3002, "0.0.0.0")) Sample.bare)).
Proof.
  apply (find_available_port_first_free (Sample.free_after 3 [] None)
           3001 "0.0.0.0" Sample.bare 1).
  - lia.
  - intros i Hi. assert (i = 0%nat) by lia. subst i. reflexivity.
  - reflexivity.
Defined.

Lemma find_available_port_exhausted_witness :
  find_available_port Sample.all_busy 3001 "127.0.0.1" Sample.bare
  = (Py.Ret None, Sample.bare).
Proof.
  apply (find_available_port_exhausted Sample.all_busy 3001 "127.0.0.1"
           Sample.bare).
  intros i _. reflexivity.
Defined.

Lemma find_available_port_sound_witness :
  3001 <= 3002 < 3001 + 10
  /\ probe (Sample.free_after 3 [] None) (3002, "0.0.0.0") = None.
Proof.
  apply (find_available_port_sound (Sample.free_after 3 [] None)
           3001 "0.0.0.0" Sample.bare
           (record (Close (3002, "0.0.0.0"))
              (record (Listen (3002, "0.0.0.0")) Sample.bare))
           (Some 3002)).
  reflexivity.
Defined.

End PortFacts.

(** ** The loop in every world *)

Module LoopFacts.

Import Handler Process Server Expected Observe.
Local Open Scope list_scope.
Local Arguments Sample.candidate_eqb : simpl never.

Lemma candidate_eqb_refl (c : candidate) : Sample.candidate_eqb c c = true.
Proof.
  destruct c as [port host]. unfold Sample.candidate_eqb. cbn.
  now rewrite Z.eqb_refl, String.eqb_refl.
Qed.

Lemma socket_ops_app (a b : list event) :
  socket_ops (a ++ b) = socket_ops a ++ socket_ops b.
Proof. apply flat_map_app. Qed.

Lemma tried_app (a b : list event) : tried (a ++ b) = tried a ++ tried b.
Proof. apply flat_map_app. Qed.

Lemma served_app (a b : list event) : served (a ++ b) = served a ++ served b.
Proof. apply flat_map_app. Qed.

Lemma one_socket_app (o : option candidate) (a b : list socket_op) :
  one_socket o (a ++ b)
  = match one_socket o a with
    | Some o' => one_socket o' b
    | None => None
    end.
Proof.
  revert o. induction a as [|[c|c] a IH]; intros o; cbn; [reflexivity| |].
  - destruct o; [reflexivity | apply IH].
  - destruct o as [c'|]; [|reflexivity].
    destruct (Sample.candidate_eqb c c'); [apply IH | reflexivity].
Qed.

(** Handling connections prints no loop line and touches no socket. *)
Lemma connection_events_quiet (es : list event) :
  forallb connection_event es = true ->
  tried es = [] /\ served es = [] /\ socket_ops es = []
  /\ existsb is_fatal es = false.
Proof.
  induction es as [|e es IH]; intros H; [now repeat split|].
  cbn in H. apply andb_prop in H. destruct H as [He Hes].
  destruct (IH Hes) as (I1 & I2 & I3 & I4).
  unfold tried, served, socket_ops in *. cbn.
  rewrite I1, I2, I3, I4.
  destruct e as [[]| | | | | | | |]; try discriminate; now repeat split.
Qed.

Section Loop.

Variable w : world.

(** The loop body on any candidate, in any world. *)
Lemma attempt_events (c : candidate) (p : Process.t) :
  exists p' es,
    attempt w c p = (attempt_outcome w c, p')
    /\ trace p' = trace p ++ Print (Trying c) :: es
    /\ tried es = []
    /\ served es = (if bindable w c then [c] else [])
    /\ one_socket None (socket_ops es)
       = Some (match attempt_outcome w c with
               | Py.Blocked => Some c
               | _ => None
               end)
    /\ existsb is_fatal es = false.
Proof.
  unfold attempt_outcome, bindable.
  destruct (probe w c) as [e1|] eqn:Hprobe;
    [|destruct (bind w c) as [e2|] eqn:Hbind].
  - destruct c as [port host].
    unfold attempt, try_port, with_TCPServer, TCPServer, Py.try_except,
      Py.bind, print, emit, Py.modify.
    rewrite Hprobe.
    destruct e1; cbn [Py.select Py.is_OSError Py.is_Exception negb];
      do 2 eexists; (split; [reflexivity|]);
      (split; [cbn [trace record]; rewrite <- ?app_assoc; reflexivity|]);
      now repeat split.
  - destruct c as [port host].
    unfold attempt, try_port, with_TCPServer, TCPServer, Py.try_except,
      Py.finally, Py.bind, print, emit, Py.modify.
    rewrite Hprobe, Hbind.
    destruct e2; cbn [Py.select Py.is_OSError Py.is_Exception negb];
      do 2 eexists; (split; [reflexivity|]);
      (split; [cbn [trace record]; rewrite <- ?app_assoc; reflexivity|]);
      cbn; rewrite ?candidate_eqb_refl; now repeat split.
  - destruct c as [port host].
    unfold attempt, try_port, serve_forever, with_TCPServer, TCPServer,
      Py.try_except, Py.finally, Py.bind, print, emit, Py.modify.
    rewrite Hprobe, Hbind. simpl.
    match goal with
    | |- context [Py.for_each _ process_request ?s] =>
        destruct (RootFacts.for_each_events (arrivals w (port, host)) s)
          as (p1 & es1 & E & Ht & Hce & _); rewrite E
    end.
    destruct (connection_events_quiet es1 Hce) as (Q1 & Q2 & Q3 & Q4).
    simpl in Ht. rewrite <- ?app_assoc in Ht. simpl in Ht.
    destruct (serve_end w (port, host)) as [[]|];
      cbn [Py.select Py.is_OSError Py.is_Exception Py.is_KeyboardInterrupt];
      do 2 eexists; (split; [reflexivity|]);
      (split; [cbn [trace record]; rewrite ?Ht, <- ?app_assoc;
               cbn [app]; reflexivity|]);
      unfold tried, served, socket_ops in *;
      repeat (rewrite ?flat_map_app, ?existsb_app; cbn);
      rewrite ?Q1, ?Q2, ?Q3, ?Q4; cbn; rewrite ?candidate_eqb_refl; cbn;
      rewrite ?candidate_eqb_refl; now repeat split.
Qed.

Lemma attempt_outcome_class (c : candidate) (e : Py.exc) :
  attempt_outcome w c = Py.Raise e -> Py.is_Exception e = false.
Proof.
  unfold attempt_outcome.
  destruct (probe w c) as [[]|]; try discriminate;
    try (intros H; inversion H; reflexivity).
  destruct (bind w c) as [[]|]; try discriminate;
    try (intros H; inversion H; reflexivity).
  destruct (serve_end w c) as [[]|]; try discriminate;
    intros H; inversion H; reflexivity.
Qed.

(** The loop over any list of candidates, in any world. *)
Lemma for_loop_events (cs : list candidate) (p : Process.t) :
  exists r p' es k,
    Py.for_loop cs (attempt w) p = (r, p')
    /\ trace p' = trace p ++ es
    /\ tried es = firstn k cs
    /\ (cs <> [] -> (0 < k)%nat)
    /\ served es = filter (bindable w) (firstn k cs)
    /\ (exists o, one_socket None (socket_ops es) = Some o
                  /\ (o = None \/ r = Py.Blocked))
    /\ existsb is_fatal es = false
    /\ match r with
       | Py.Raise e => Py.is_Exception e = false
       | _ => True
       end
    /\ r = loop_end w cs
    /\ tried es = upto_stop w cs.
Proof.
  revert p. induction cs as [|c cs IH]; intros p.
  - exists (Py.Ret tt), p, [], 0%nat. cbn. rewrite app_nil_r.
    repeat split; try reflexivity; try congruence; try (exists None; auto).
  - destruct (attempt_events c p)
      as (p1 & es1 & E1 & Ht1 & T1 & S1 & K1 & F1).
    cbn [Py.for_loop]. unfold Py.bind at 1. rewrite E1.
    pose proof (attempt_outcome_class c) as Hclass.
    cbn [loop_end upto_stop].
    destruct (attempt_outcome w c) as [[]|e|].
    + (* continue *)
      destruct (IH p1) as (r & p2 & es2 & k & E2 & Ht2 & T2 & _ & S2
                           & (o & K2 & Ho) & F2 & R2 & L2 & U2).
      exists r, p2, (Print (Trying c) :: es1 ++ es2), (S k).
      rewrite E2, Ht2, Ht1, <- app_assoc.
      split; [reflexivity|]. split; [reflexivity|].
      split; [change (tried (Print (Trying c) :: es1 ++ es2))
                with (c :: tried (es1 ++ es2));
              now rewrite tried_app, T1, T2|].
      split; [intros _; apply Nat.lt_0_succ|].
      split; [change (served (Print (Trying c) :: es1 ++ es2))
                with (served (es1 ++ es2));
              rewrite served_app, S1, S2; cbn [firstn filter];
              now destruct (bindable w c)|].
      split; [exists o;
              change (socket_ops (Print (Trying c) :: es1 ++ es2))
                with (socket_ops (es1 ++ es2));
              rewrite socket_ops_app, one_socket_app, K1; auto|].
      split; [change (existsb is_fatal (Print (Trying c) :: es1 ++ es2))
                with (existsb is_fatal (es1 ++ es2));
              now rewrite existsb_app, F1, F2|].
      split; [exact R2|]. split; [exact L2|].
      change (tried (Print (Trying c) :: es1 ++ es2))
        with (c :: tried (es1 ++ es2)).
      now rewrite tried_app, T1, U2.
    + (* break *)
      exists (Py.Ret tt), p1, (Print (Trying c) :: es1), 1%nat.
      rewrite Ht1.
      split; [reflexivity|]. split; [reflexivity|].
      split; [change (tried (Print (Trying c) :: es1)) with (c :: tried es1);
              now rewrite T1|].
      split; [intros _; apply Nat.lt_0_succ|].
      split; [change (served (Print (Trying c) :: es1)) with (served es1);
              rewrite S1; cbn [firstn filter]; now destruct (bindable w c)|].
      split; [exists None; split; [exact K1 | now left]|].
      split; [exact F1|]. split; [exact I|]. split; [reflexivity|].
      change (tried (Print (Trying c) :: es1)) with (c :: tried es1).
      now rewrite T1.
    + (* an exception that is not an Exception *)
      exists (Py.Raise e), p1, (Print (Trying c) :: es1), 1%nat.
      rewrite Ht1.
      split; [reflexivity|]. split; [reflexivity|].
      split; [change (tried (Print (Trying c) :: es1)) with (c :: tried es1);
              now rewrite T1|].
      split; [intros _; apply Nat.lt_0_succ|].
      split; [change (served (Print (Trying c) :: es1)) with (served es1);
              rewrite S1; cbn [firstn filter]; now destruct (bindable w c)|].
      split; [exists None; split; [exact K1 | now left]|].
      split; [exact F1|]. split; [exact (Hclass e eq_refl)|].
      split; [reflexivity|].
      change (tried (Print (Trying c) :: es1)) with (c :: tried es1).
      now rewrite T1.
    + (* serving for ever *)
      exists Py.Blocked, p1, (Print (Trying c) :: es1), 1%nat.
      rewrite Ht1.
      split; [reflexivity|]. split; [reflexivity|].
      split; [change (tried (Print (Trying c) :: es1)) with (c :: tried es1);
              now rewrite T1|].
      split; [intros _; apply Nat.lt_0_succ|].
      split; [change (served (Print (Trying c) :: es1)) with (served es1);
              rewrite S1; cbn [firstn filter]; now destruct (bindable w c)|].
      split; [exists (Some c); split; [exact K1 | now right]|].
      split; [exact F1|]. split; [exact I|]. split; [reflexivity|].
      change (tried (Print (Trying c) :: es1)) with (c :: tried es1).
      now rewrite T1.
Qed.

(** The whole run, in any world: the loop events between the banner and
    the closing line, and the exit status by the way the loop ended. *)
Lemma run_events (p : Process.t) :
  exists r es k,
    snd (run w p)
    = trace p ++ [Print Banner; Print Rule] ++ es
      ++ match r with
         | Py.Ret _ => [Print AllFailed]
         | Py.Raise Py.KeyboardInterrupt => [Print Goodbye]
         | _ => []
         end
    /\ fst (run w p)
       = match r with
         | Py.Ret _ => Exit 1
         | Py.Raise Py.KeyboardInterrupt => Exit 0
         | Py.Raise (Py.SystemExit code) => Exit code
         | Py.Raise _ => Exit 1
         | Py.Blocked => Running
         end
    /\ fst (start_server w p)
       = match r with
         | Py.Ret _ => Py.Raise (Py.SystemExit 1)
         | other => other
         end
    /\ tried es = firstn k strategies
    /\ (0 < k)%nat
    /\ served es = filter (bindable w) (firstn k strategies)
    /\ (exists o, one_socket None (socket_ops es) = Some o
                  /\ (o = None \/ r = Py.Blocked))
    /\ existsb is_fatal es = false
    /\ match r with
       | Py.Raise e => Py.is_Exception e = false
       | _ => True
       end
    /\ r = loop_end w strategies
    /\ tried es = upto_stop w strategies.
Proof.
  destruct (for_loop_events strategies
              (record (Print Rule) (record (Print Banner) p)))
    as (r & p' & es & k & E & Ht & T & Hk & S & K & F & R & L & U).
  exists r, es, k.
  rewrite ServerFacts.run_unfold, ServerFacts.start_server_unfold, E.
  unfold after_loop.
  assert (Hp' : trace p' = trace p ++ [Print Banner; Print Rule] ++ es).
  { rewrite Ht. cbn. now rewrite <- !app_assoc. }
  assert (Hk' : (0 < k)%nat) by (apply Hk; discriminate).
  destruct r as [[]|e|].
  - cbn. rewrite Hp', <- !app_assoc. auto 15.
  - destruct e; try discriminate R; cbn; rewrite Hp', <- ?app_assoc;
      rewrite ?app_nil_r; auto 15.
  - cbn. rewrite Hp', app_nil_r. auto 15.
Qed.

End Loop.

(** X12. In every world the loop announces the candidates in the order
    of the list, each at most once and none from outside it: the
    candidates tried in a run are a non-empty initial part of the eight
    strategies. *)
Theorem tried_in_order
        (w : world) (dist client temp : bool) (index : option page) :
  exists k,
    (0 < k <= 8)%nat
    /\ tried (snd (run w (Process.start dist client temp index)))
       = firstn k strategies.
Proof.
  destruct (run_events w (Process.start dist client temp index))
    as (r & es & k & Htr & _ & _ & T & Hk & _).
  exists (Nat.min k 8). split; [lia|].
  rewrite Htr. cbn [trace Process.start app].
  change (tried (Print Banner :: Print Rule :: es ++ _))
    with (tried (es ++ match r with
                       | Py.Ret _ => [Print AllFailed]
                       | Py.Raise Py.KeyboardInterrupt => [Print Goodbye]
                       | _ => []
                       end)).
  rewrite tried_app, T.
  replace (tried _) with (@nil candidate) by (now destruct r as [[]|[]|]).
  rewrite app_nil_r.
  change 8%nat with (List.length strategies).
  now rewrite <- firstn_firstn, firstn_all.
Qed.

(** X13. In every world the process holds at most one listening socket
    at a time, and every close is the close of the socket that is open:
    the probe socket of [try_port] is closed before the serving socket
    is opened, the serving socket before the next candidate is probed.
    When the process exits no socket is open; one is left open only
    while it is serving. *)
Theorem one_socket_at_a_time
        (w : world) (dist client temp : bool) (index : option page) :
  exists o,
    one_socket None
      (socket_ops (snd (run w (Process.start dist client temp index))))
    = Some o
    /\ (o = None
        \/ fst (run w (Process.start dist client temp index)) = Running).
Proof.
  destruct (run_events w (Process.start dist client temp index))
    as (r & es & k & Htr & Hst & _ & _ & _ & _ & (o & K & Ho) & _).
  exists o. rewrite Htr, Hst. cbn [trace Process.start app].
  change (socket_ops (Print Banner :: Print Rule :: es ++ _))
    with (socket_ops (es ++ match r with
                            | Py.Ret _ => [Print AllFailed]
                            | Py.Raise Py.KeyboardInterrupt => [Print Goodbye]
                            | _ => []
                            end)).
  rewrite socket_ops_app, one_socket_app, K.
  replace (socket_ops _) with (@nil socket_op) by (now destruct r as [[]|[]|]).
  split; [reflexivity|].
  destruct Ho as [Ho | Ho]; [now left | right; now subst r].
Qed.

(** X14. [start_server] never returns and never lets an exception of
    class [Exception] out: it blocks, or raises [SystemExit] or an
    interrupt. So the "Fatal error" line of the [__main__] block is never
    printed, in any world. *)
Theorem no_exception_escapes
        (w : world) (dist client temp : bool) (index : option page) :
  match fst (start_server w (Process.start dist client temp index)) with
  | Py.Ret _ => False
  | Py.Raise e => Py.is_Exception e = false
  | Py.Blocked => True
  end
  /\ existsb is_fatal (snd (run w (Process.start dist client temp index)))
     = false.
Proof.
  destruct (run_events w (Process.start dist client temp index))
    as (r & es & k & Htr & Hst & Hss & _ & _ & _ & _ & F & R & _ & _).
  rewrite Htr, Hss. cbn [trace Process.start app].
  split.
  - destruct r as [[]|e|]; [reflexivity | exact R | exact I].
  - change (existsb is_fatal (Print Banner :: Print Rule :: es ++ _))
      with (existsb is_fatal
              (es ++ match r with
                     | Py.Ret _ => [Print AllFailed]
                     | Py.Raise Py.KeyboardInterrupt => [Print Goodbye]
                     | _ => []
                     end)).
    rewrite existsb_app, F. now destruct r as [[]|[]|].
Qed.

Lemma stops_after_continues (w : world) (pre rest : list candidate) :
  (forall c, In c pre -> attempt_outcome w c = Py.Ret Py.Continue) ->
  loop_end w (pre ++ rest) = loop_end w rest
  /\ upto_stop w (pre ++ rest) = pre ++ upto_stop w rest.
Proof.
  induction pre as [|c pre IH]; intros H; [now split|].
  cbn [app loop_end upto_stop]. rewrite (H c (or_introl eq_refl)).
  destruct IH as [IH1 IH2]; [intros c' Hc'; apply H; now right|].
  now rewrite IH1, IH2.
Qed.

Lemma busy_continues (w : world) (c : candidate) :
  probe w c = Some Py.OSError ->
  attempt_outcome w c = Py.Ret Py.Continue /\ bindable w c = false.
Proof. intros H. unfold attempt_outcome, bindable. now rewrite H. Qed.

Lemma filter_none {A : Type} (f : A -> bool) (l : list A) :
  (forall a, In a l -> f a = false) -> filter f l = [].
Proof.
  induction l as [|a l IH]; intros H; [reflexivity|].
  cbn. rewrite (H a (or_introl eq_refl)). apply IH.
  intros b Hb. apply H. now right.
Qed.

(** The run read off the world, with the decorations of [run_events]
    removed. *)
Lemma run_exact (w : world) (dist client temp : bool) (index : option page) :
  tried (snd (run w (Process.start dist client temp index)))
  = upto_stop w strategies
  /\ served (snd (run w (Process.start dist client temp index)))
     = filter (bindable w) (upto_stop w strategies)
  /\ fst (run w (Process.start dist client temp index))
     = match loop_end w strategies with
       | Py.Ret _ => Exit 1
       | Py.Raise Py.KeyboardInterrupt => Exit 0
       | Py.Raise (Py.SystemExit code) => Exit code
       | Py.Raise _ => Exit 1
       | Py.Blocked => Running
       end
  /\ exists before,
       snd (run w (Process.start dist client temp index))
       = before ++ match loop_end w strategies with
                   | Py.Ret _ => [Print AllFailed]
                   | Py.Raise Py.KeyboardInterrupt => [Print Goodbye]
                   | _ => []
                   end.
Proof.
  destruct (run_events w (Process.start dist client temp index))
    as (r & es & k & Htr & Hst & _ & T & _ & S & _ & _ & _ & L & U).
  rewrite Htr, Hst, <- L. cbn [trace Process.start app].
  assert (Htail : forall (A : Type) (f : event -> list A),
             f (Print AllFailed) = [] -> f (Print Goodbye) = [] ->
             f (Print Banner) = [] -> f (Print Rule) = [] ->
             flat_map f (Print Banner :: Print Rule :: es
                         ++ match r with
                            | Py.Ret _ => [Print AllFailed]
                            | Py.Raise Py.KeyboardInterrupt => [Print Goodbye]
                            | _ => []
                            end)
             = flat_map f es).
  { intros A f H1 H2 H3 H4. cbn [flat_map]. rewrite H3, H4. cbn [app].
    rewrite flat_map_app.
    assert (Hnil : flat_map f match r with
                               | Py.Ret _ => [Print AllFailed]
                               | Py.Raise Py.KeyboardInterrupt => [Print Goodbye]
                               | _ => []
                               end = [])
      by (destruct r as [[]|[]|]; cbn; rewrite ?H1, ?H2; reflexivity).
    rewrite Hnil. apply app_nil_r. }
  split; [|split; [|split]].
  - unfold tried at 1. rewrite Htail by reflexivity. exact U.
  - unfold served at 1. rewrite Htail by reflexivity.
    fold (served es). now rewrite S, <- T, U.
  - reflexivity.
  - exists (Print Banner :: Print Rule :: es). reflexivity.
Qed.

(** X15. In every world the run is the run of the loop read off the
    world: the candidates tried are those up to and including the first
    one at which the loop body does not [continue]; the candidates
    served are the ones among them for which the probe and the real bind
    both succeeded; and the exit status is 1 when the loop ran out or
    was left by [break], 0 for an interrupt outside [serve_forever], and
    none while the last candidate is served for ever. *)
Theorem run_follows_the_world
        (w : world) (dist client temp : bool) (index : option page) :
  tried (snd (run w (Process.start dist client temp index)))
  = upto_stop w strategies
  /\ served (snd (run w (Process.start dist client temp index)))
     = filter (bindable w) (upto_stop w strategies)
  /\ fst (run w (Process.start dist client temp index))
     = match loop_end w strategies with
       | Py.Ret _ => Exit 1
       | Py.Raise Py.KeyboardInterrupt => Exit 0
       | Py.Raise (Py.SystemExit code) => Exit code
       | Py.Raise _ => Exit 1
       | Py.Blocked => Running
       end.
Proof.
  destruct (run_exact w dist client temp index) as (H1 & H2 & H3 & _).
  auto.
Qed.

(** X16. When no candidate can be bound, whether [try_port] fails on it
    or the probe passes and the real bind then raises (the race), and
    whatever [Exception] is raised, the run tries all eight candidates in
    order, serves none, prints the failure message last and exits with
    status 1. *)
Theorem unbindable_everywhere_exits_1
        (w : world) (dist client temp : bool) (index : option page) :
  (forall c, In c strategies ->
     (exists e, probe w c = Some e /\ Py.is_Exception e = true)
     \/ (probe w c = None
         /\ exists e, bind w c = Some e /\ Py.is_Exception e = true)) ->
  fst (run w (Process.start dist client temp index)) = Exit 1
  /\ tried (snd (run w (Process.start dist client temp index))) = strategies
  /\ served (snd (run w (Process.start dist client temp index))) = []
  /\ exists before,
       snd (run w (Process.start dist client temp index))
       = before ++ [Print AllFailed].
Proof.
  intros H.
  assert (Hc : forall c, In c strategies ->
                 attempt_outcome w c = Py.Ret Py.Continue
                 /\ bindable w c = false).
  { intros c Hin. unfold attempt_outcome, bindable.
    destruct (H c Hin) as [(e & -> & He) | (-> & e & -> & He)];
      now rewrite He. }
  destruct (stops_after_continues w strategies [])
    as [L U]; [intros c Hin; now apply Hc|].
  rewrite app_nil_r in L, U. cbn [loop_end upto_stop app] in L, U.
  rewrite app_nil_r in U.
  destruct (run_exact w dist client temp index) as (H1 & H2 & H3 & H4).
  rewrite H1, H2, H3. rewrite L in *. rewrite U.
  repeat split; auto.
  apply filter_none. intros c Hin. now apply Hc.
Qed.

Lemma unbindable_everywhere_exits_1_witness :
  fst (run {| probe := fun _ => None;
              bind := fun _ => Some Py.OSError;
              arrivals := fun _ => [];
              serve_end := fun _ => None |} Sample.bare) = Exit 1
  /\ tried (snd (run {| probe := fun _ => None;
                        bind := fun _ => Some Py.OSError;
                        arrivals := fun _ => [];
                        serve_end := fun _ => None |} Sample.bare))
     = strategies.
Proof.
  destruct (unbindable_everywhere_exits_1
              {| probe := fun _ => None;
                 bind := fun _ => Some Py.OSError;
                 arrivals := fun _ => [];
                 serve_end := fun _ => None |} false false false None)
    as (H1 & H2 & _).
  - intros c _. right. split; [reflexivity|].
    exists Py.OSError. split; reflexivity.
  - split; assumption.
Defined.

Lemma busy_prefix (w : world) (n : nat) :
  (forall c, In c (firstn n strategies) -> probe w c = Some Py.OSError) ->
  (forall c, In c (firstn n strategies) ->
             attempt_outcome w c = Py.Ret Py.Continue)
  /\ filter (bindable w) (firstn n strategies) = [].
Proof.
  intros H. split.
  - intros c Hin. now apply busy_continues, H.
  - apply filter_none. intros c Hin. now apply busy_continues, H.
Qed.

(** X17. An interrupt that arrives outside [serve_forever], while a
    candidate is probed by [try_port] or bound for real, is not caught
    in [start_server]: with the candidates before it taken, the run
    stops at that candidate, serves nothing, prints "Goodbye!" last and
    exits with status 0, and the failure message is not printed. *)
Theorem interrupt_outside_serving_exits_0
        (w : world) (dist client temp : bool) (index : option page)
        (n : nat) (c : candidate) :
  nth_error strategies n = Some c ->
  (forall c', In c' (firstn n strategies) -> probe w c' = Some Py.OSError) ->
  probe w c = Some Py.KeyboardInterrupt
  \/ (probe w c = None /\ bind w c = Some Py.KeyboardInterrupt) ->
  fst (run w (Process.start dist client temp index)) = Exit 0
  /\ tried (snd (run w (Process.start dist client temp index)))
     = firstn (S n) strategies
  /\ served (snd (run w (Process.start dist client temp index))) = []
  /\ exists before,
       snd (run w (Process.start dist client temp index))
       = before ++ [Print Goodbye].
Proof.
  intros Hn Hbusy Hint.
  destruct (ServerFacts.split_strategies n c Hn) as [post Hsplit].
  destruct (busy_prefix w n Hbusy) as [Hcont Hnone].
  destruct (stops_after_continues w (firstn n strategies) (c :: post) Hcont)
    as [L U].
  rewrite <- Hsplit in L, U.
  assert (Ho : attempt_outcome w c = Py.Raise Py.KeyboardInterrupt
               /\ bindable w c = false).
  { unfold attempt_outcome, bindable.
    destruct Hint as [-> | [-> ->]]; now split. }
  destruct Ho as [Ho Hb].
  cbn [loop_end upto_stop] in L, U. rewrite Ho in L, U.
  destruct (run_exact w dist client temp index) as (H1 & H2 & H3 & H4).
  rewrite H1, H2, H3. rewrite L in H4. rewrite L, U.
  rewrite (ServerFacts.firstn_S_nth strategies n c Hn).
  rewrite filter_app, Hnone. cbn. rewrite Hb. auto.
Qed.

Lemma interrupt_outside_serving_exits_0_witness :
  fst (run {| probe := fun c => if (fst c =? 3001) then Some Py.OSError
                                else Some Py.KeyboardInterrupt;
              bind := fun _ => None;
              arrivals := fun _ => [];
              serve_end := fun _ => None |} Sample.bare) = Exit 0.
Proof.
  apply (interrupt_outside_serving_exits_0
           {| probe := fun c => if (fst c =? 3001) then Some Py.OSError
                                else Some Py.KeyboardInterrupt;
              bind := fun _ => None;
              arrivals := fun _ => [];
              serve_end := fun _ => None |}
           false false false None 3 (8080, "127.0.0.1")).
  - reflexivity.
  - intros c' Hin. cbn in Hin.
    destruct Hin as [<- | [<- | [<- | []]]]; reflexivity.
  - left. reflexivity.
Defined.

(** X18. When [serve_forever] on a candidate ends with an exception of
    class [Exception], the loop does not stop: the serving socket is
    closed, and the next candidate of the list is tried. *)
Theorem crash_moves_on
        (w : world) (dist client temp : bool) (index : option page)
        (n : nat) (c c2 : candidate) (e : Py.exc) :
  nth_error strategies n = Some c ->
  nth_error strategies (S n) = Some c2 ->
  (forall c', In c' (firstn n strategies) -> probe w c' = Some Py.OSError) ->
  probe w c = None ->
  bind w c = None ->
  serve_end w c = Some e ->
  Py.is_Exception e = true ->
  exists rest,
    tried (snd (run w (Process.start dist client temp index)))
    = firstn n strategies ++ c :: c2 :: rest
    /\ served (snd (run w (Process.start dist client temp index)))
       = c :: filter (bindable w) (c2 :: rest).
Proof.
  intros Hn Hn2 Hbusy Hprobe Hbind Hend He.
  destruct (ServerFacts.split_strategies n c Hn) as [post Hsplit].
  assert (Hpost : exists post2, post = c2 :: post2).
  { rewrite Hsplit in Hn2.
    assert (Hlen : List.length (firstn n strategies) = n).
    { apply firstn_length_le. apply Nat.lt_le_incl.
      apply nth_error_Some. congruence. }
    rewrite nth_error_app2 in Hn2 by (rewrite Hlen; lia).
    rewrite Hlen in Hn2. replace (S n - n)%nat with 1%nat in Hn2 by lia.
    destruct post as [|x post2]; [discriminate|].
    cbn in Hn2. inversion Hn2; subst. now exists post2. }
  destruct Hpost as [post2 ->].
  destruct (busy_prefix w n Hbusy) as [Hcont Hnone].
  destruct (stops_after_continues w (firstn n strategies)
              (c :: c2 :: post2) Hcont) as [_ U].
  rewrite <- Hsplit in U.
  assert (Ho : attempt_outcome w c = Py.Ret Py.Continue
               /\ bindable w c = true).
  { unfold attempt_outcome, bindable. rewrite Hprobe, Hbind, Hend.
    destruct e; try discriminate He; now split. }
  destruct Ho as [Ho Hb].
  cbn [upto_stop] in U. rewrite Ho in U.
  destruct (run_exact w dist client temp index) as (H1 & H2 & _).
  rewrite H1, H2, U.
  eexists. split; [reflexivity|].
  rewrite filter_app, Hnone. cbn [app filter]. now rewrite Hb.
Qed.

Lemma crash_moves_on_witness :
  exists rest,
    tried (snd (run (Sample.free_after 0 [] (Some Py.OSError)) Sample.bare))
    = (3001, "127.0.0.1") :: (3001, "localhost") :: rest.
Proof.
  destruct (crash_moves_on (Sample.free_after 0 [] (Some Py.OSError))
              false false false None 0
              (3001, "127.0.0.1") (3001, "localhost") Py.OSError)
    as (rest & H & _); try reflexivity.
  - intros c' [].
  - exists rest. exact H.
Defined.

End LoopFacts.
